(** * Competition-scoring engine of the open-home optimizer

    A shallow embedding of [src/backend/api/clean_api.py]
    ([parse_criteria_value], [filter_similar_properties],
    [analyze_competition] and the ranking step of [get_inspections]),
    together with the Python built-ins these functions rely on
    ([int], [str], [str.split], [str.replace], [in], the [02d] format,
    insertion-ordered [dict], stable [sorted]).

    Strings are ASCII strings; Python integers are [Z]; [float('inf')]
    is a constructor of its own; exceptions are an explicit result type.
    The interpreter's configurable cap on the number of digits converted
    between [int] and [str] is not modelled. *)

From Stdlib Require Import ZArith List Bool Ascii String Lia Decimal DecimalString
  DecimalZ DecimalPos Permutation Sorted FinFun.
Import ListNotations.

#[local] Open Scope string_scope.
#[local] Open Scope Z_scope.

(** ** Exceptions *)

(** [ValueError] is what [int] raises on a bad literal and what tuple
    unpacking raises on a wrong number of values; [IndexError] is what
    indexing a list out of range raises. *)
Inductive exn : Type :=
| ValueError
| IndexError.

Inductive result (A : Type) : Type :=
| Ok (a : A)
| Raise (e : exn).

Arguments Ok {A} a.
Arguments Raise {A} e.

Definition bind {A B : Type} (r : result A) (k : A -> result B) : result B :=
  match r with
  | Ok a => k a
  | Raise e => Raise e
  end.

Notation "x <- r ;; k" := (bind r (fun x => k))
  (at level 61, r at next level, right associativity).
Notation "' p <- r ;; k" := (bind r (fun x => match x with p => k end))
  (at level 61, p pattern, r at next level, right associativity).

Definition raises {A : Type} (r : result A) : Prop :=
  exists e, r = Raise e.

(** ** Python string built-ins *)

Module PyStr.

(** [c in s] for a one-character needle. *)
Fixpoint contains (c : ascii) (s : string) : bool :=
  match s with
  | EmptyString => false
  | String c' s' => if Ascii.eqb c' c then true else contains c s'
  end.

(** [s.replace(c, '')]. *)
Fixpoint remove_char (c : ascii) (s : string) : string :=
  match s with
  | EmptyString => EmptyString
  | String c' s' =>
      if Ascii.eqb c' c then remove_char c s' else String c' (remove_char c s')
  end.

(** [s.split(sep)] for a one-character separator, as the first field and
    the list of the following ones: the result is never empty. *)
Fixpoint split_fields (sep : ascii) (s : string) : string * list string :=
  match s with
  | EmptyString => (EmptyString, [])
  | String c s' =>
      let (field, fields) := split_fields sep s' in
      if Ascii.eqb c sep then (EmptyString, field :: fields)
      else (String c field, fields)
  end.

Definition split (sep : ascii) (s : string) : list string :=
  let (field, fields) := split_fields sep s in field :: fields.

(** *** [int(s)]

    CPython's [PyLong_FromString] in base 10 on an ASCII string: leading
    white space, an optional sign, decimal digits with single underscores
    between them, trailing white space, and nothing else.  The digit run
    may not be empty nor start with an underscore, that is, it starts with
    a digit. *)

Definition is_space (c : ascii) : bool :=
  let n := N_of_ascii c in
  (((9 <=? n) && (n <=? 13)) || (n =? 32))%N.

Definition digit_value (c : ascii) : option Z :=
  let n := N_of_ascii c in
  if ((48 <=? n) && (n <=? 57))%N then Some (Z.of_N n - 48) else None.

Fixpoint lstrip (s : string) : string :=
  match s with
  | EmptyString => EmptyString
  | String c s' => if is_space c then lstrip s' else s
  end.

(** The digit scan: [prev_us] tells that the previous character was an
    underscore; the scan stops at the first character that is neither a
    digit nor an underscore and fails on a doubled or trailing underscore. *)
Fixpoint scan_digits (s : string) (acc : Z) (prev_us : bool)
  : option (Z * string) :=
  match s with
  | EmptyString => if prev_us then None else Some (acc, EmptyString)
  | String c s' =>
      match digit_value c with
      | Some d => scan_digits s' (10 * acc + d) false
      | None =>
          if Ascii.eqb c "_" then
            if prev_us then None else scan_digits s' acc true
          else if prev_us then None else Some (acc, s)
      end
  end.

Definition strip_sign (s : string) : bool * string :=
  match s with
  | String "+" s' => (false, s')
  | String "-" s' => (true, s')
  | _ => (false, s)
  end.

Definition int (s : string) : result Z :=
  let (negative, body) := strip_sign (lstrip s) in
  match body with
  | EmptyString => Raise ValueError
  | String c _ =>
      match digit_value c with
      | None => Raise ValueError
      | Some _ =>
          match scan_digits body 0 false with
          | None => Raise ValueError
          | Some (v, rest) =>
              match lstrip rest with
              | EmptyString => Ok (if negative then - v else v)
              | String _ _ => Raise ValueError
              end
          end
      end
  end.

(** [str(n)] for an integer. *)
Definition str (n : Z) : string :=
  NilZero.string_of_int (Z.to_int n).

(** [f"{n:02d}"]: sign-aware zero padding to width 2. *)
Definition format_02d (n : Z) : string :=
  if n <? 0 then str n
  else if n <? 10 then String "0" (str n)
  else str n.

End PyStr.

(** ** Python containers *)

(** [l[i]]. *)
Definition index {A : Type} (l : list A) (i : nat) : result A :=
  match nth_error l i with
  | Some a => Ok a
  | None => Raise IndexError
  end.

(** [d.get(key, default)] on an optional entry. *)
Definition get {A : Type} (entry : option A) (default : A) : A :=
  match entry with
  | Some a => a
  | None => default
  end.

(** [range(lo, hi)]. *)
Definition range (lo hi : Z) : list Z :=
  map (fun i => lo + Z.of_nat i) (seq 0 (Z.to_nat (hi - lo))).

(** [a, b = map(int, parts)]: the map is lazy, so [int] runs on a part
    only when the unpacking asks for it, the third one included. *)
Definition unpack2_map_int (parts : list string) : result (Z * Z) :=
  match parts with
  | [] => Raise ValueError
  | a :: parts1 =>
      x <- PyStr.int a ;;
      match parts1 with
      | [] => Raise ValueError
      | b :: parts2 =>
          y <- PyStr.int b ;;
          match parts2 with
          | [] => Ok (x, y)
          | c :: _ => _ <- PyStr.int c ;; Raise ValueError
          end
      end
  end.

(** A Python [dict] with string keys: insertion-ordered, a key assigned
    again keeps its place. *)
Module Dict.
Section Dict.
Context {V : Type}.

Definition t : Type := list (string * V).

(** [key in d] *)
Fixpoint mem (key : string) (d : t) : bool :=
  match d with
  | [] => false
  | (k, _) :: d' => if String.eqb k key then true else mem key d'
  end.

(** [d[key] = v] *)
Fixpoint set (key : string) (v : V) (d : t) : t :=
  match d with
  | [] => [(key, v)]
  | (k, v') :: d' =>
      if String.eqb k key then (k, v) :: d' else (k, v') :: set key v d'
  end.

(** In-place mutation of the value stored at [key], when there is one. *)
Fixpoint update (key : string) (f : V -> V) (d : t) : t :=
  match d with
  | [] => []
  | (k, v) :: d' =>
      if String.eqb k key then (k, f v) :: d' else (k, v) :: update key f d'
  end.

Definition keys (d : t) : list string := map fst d.

(** [d.values()] *)
Definition values (d : t) : list V := map snd d.
End Dict.
Arguments t V : clear implicits.
End Dict.

(** [sorted(l, key=key)]: the built-in sort is stable, which determines
    its result; it is modelled by a stable insertion sort. *)
Fixpoint insert_by {A : Type} (key : A -> Z) (x : A) (l : list A) : list A :=
  match l with
  | [] => [x]
  | y :: l' => if key x <=? key y then x :: l else y :: insert_by key x l'
  end.

Definition sorted {A : Type} (key : A -> Z) (l : list A) : list A :=
  fold_right (insert_by key) [] l.

(** ** Data model *)

Record PropertyDetails : Type := {
  bedrooms : option Z;
  bathrooms : option Z;
  car_spots : option Z;
  property_type : option string
}.

Record Inspection : Type := {
  address : string;
  date : string;
  start_time : string;
  end_time : string;
  property_details : option PropertyDetails
}.

(** The criteria dictionary built by the request handler: one range spec
    per attribute. *)
Record Criteria : Type := {
  similar_bedrooms : string;
  similar_bathrooms : string;
  similar_car_spots : string
}.

(** The time filter dictionary; both entries are read with a default. *)
Record TimeFilter : Type := {
  filter_start : option string;
  filter_end : option string
}.

(** An upper bound: an integer or [float('inf')]. *)
Inductive bound : Type :=
| Int (z : Z)
| Inf.

(** [v <= b] for an integer [v]. *)
Definition le_bound (v : Z) (b : bound) : bool :=
  match b with
  | Int z => v <=? z
  | Inf => true
  end.

Record Slot : Type := {
  time : string;
  count : Z;
  competition : string;
  properties : list Inspection
}.

(** ** The program *)

Definition parse_criteria_value (criteria_str : string) : result (Z * bound) :=
  if PyStr.contains "+" criteria_str then
    min_val <- PyStr.int (PyStr.remove_char "+" criteria_str) ;;
    Ok (min_val, Inf)
  else if PyStr.contains "-" criteria_str then
    let parts := PyStr.split "-" criteria_str in
    part0 <- index parts 0 ;;
    lo <- PyStr.int part0 ;;
    part1 <- index parts 1 ;;
    hi <- PyStr.int part1 ;;
    Ok (lo, Int hi)
  else
    val <- PyStr.int criteria_str ;;
    Ok (val, Int val).

Definition no_details : PropertyDetails :=
  {| bedrooms := None; bathrooms := None; car_spots := None;
     property_type := None |}.

(** The body of the filtering loop: the test made on one inspection. *)
Definition matches_criteria (bed_min : Z) (bed_max : bound)
  (bath_min : Z) (bath_max : bound) (car_min : Z) (car_max : bound)
  (inspection : Inspection) : bool :=
  let details := get (property_details inspection) no_details in
  let beds := get (bedrooms details) 3 in
  let baths := get (bathrooms details) 2 in
  let cars := get (car_spots details) 1 in
  let matches_bedrooms := (bed_min <=? beds) && le_bound beds bed_max in
  let matches_bathrooms := (bath_min <=? baths) && le_bound baths bath_max in
  let matches_car_spots := (car_min <=? cars) && le_bound cars car_max in
  matches_bedrooms && matches_bathrooms && matches_car_spots.

Definition filter_similar_properties (inspections : list Inspection)
  (similar_criteria : Criteria) : result (list Inspection) :=
  ' (bed_min, bed_max) <- parse_criteria_value (similar_bedrooms similar_criteria) ;;
  ' (bath_min, bath_max) <- parse_criteria_value (similar_bathrooms similar_criteria) ;;
  ' (car_min, car_max) <- parse_criteria_value (similar_car_spots similar_criteria) ;;
  Ok (fold_left
        (fun filtered_inspections inspection =>
           if matches_criteria bed_min bed_max bath_min bath_max
                car_min car_max inspection
           then (filtered_inspections ++ [inspection])%list
           else filtered_inspections)
        inspections []).

Definition time_key (hour minute : Z) : string :=
  PyStr.format_02d hour ++ ":" ++ PyStr.format_02d minute.

Definition new_slot (key : string) : Slot :=
  {| time := key; count := 0; competition := "low"; properties := [] |}.

(** The inner loop over [[0, 30]], with its [break]. *)
Fixpoint init_minutes (hour end_hour : Z) (minutes : list Z)
  (time_slots : Dict.t Slot) : Dict.t Slot :=
  match minutes with
  | [] => time_slots
  | minute :: minutes' =>
      if (hour =? end_hour) && (minute >? 0) then time_slots
      else
        let key := time_key hour minute in
        init_minutes hour end_hour minutes'
          (Dict.set key (new_slot key) time_slots)
  end.

Definition init_time_slots (start_hour end_hour : Z) : Dict.t Slot :=
  fold_left
    (fun time_slots hour => init_minutes hour end_hour [0; 30] time_slots)
    (range start_hour (end_hour + 1)) [].

Definition parse_start_time (s : string) : result (Z * Z) :=
  unpack2_map_int (PyStr.split ":" s).

Definition add_inspection (inspection : Inspection) (slot : Slot) : Slot :=
  {| time := time slot;
     count := count slot + 1;
     competition := competition slot;
     properties := (properties slot ++ [inspection])%list |}.

Definition count_inspection (time_slots : Dict.t Slot)
  (inspection : Inspection) : result (Dict.t Slot) :=
  ' (hour, minute) <- parse_start_time (start_time inspection) ;;
  let rounded_minute := if minute <? 30 then 0 else 30 in
  let slot_key := time_key hour rounded_minute in
  if Dict.mem slot_key time_slots
  then Ok (Dict.update slot_key (add_inspection inspection) time_slots)
  else Ok time_slots.

Fixpoint count_inspections (inspections : list Inspection)
  (time_slots : Dict.t Slot) : result (Dict.t Slot) :=
  match inspections with
  | [] => Ok time_slots
  | inspection :: inspections' =>
      time_slots' <- count_inspection time_slots inspection ;;
      count_inspections inspections' time_slots'
  end.

Definition competition_level (n : Z) : string :=
  if n <=? 2 then "low"
  else if n <=? 5 then "medium"
  else if n <=? 10 then "high"
  else "very-high".

Definition set_competition (slot : Slot) : Slot :=
  {| time := time slot;
     count := count slot;
     competition := competition_level (count slot);
     properties := properties slot |}.

Definition window_hour (bound_str : string) : result Z :=
  hh <- index (PyStr.split ":" bound_str) 0 ;;
  PyStr.int hh.

Definition analyze_competition (inspections : list Inspection)
  (time_filter : TimeFilter) : result (list Slot) :=
  start_hour <- window_hour (get (filter_start time_filter) "09:00") ;;
  end_hour <- window_hour (get (filter_end time_filter) "16:00") ;;
  time_slots <- count_inspections inspections
                  (init_time_slots start_hour end_hour) ;;
  Ok (Dict.values (map (fun kv => (fst kv, set_competition (snd kv))) time_slots)).

(** The ranking step of [get_inspections]:
    [sorted(competition_analysis, key=lambda x: x['count'])[:5]]. *)
Definition recommendations (competition_analysis : list Slot) : list Slot :=
  firstn 5 (sorted count competition_analysis).

(** ** The rest of the API: string helpers *)

Module PyStrMore.

(** White space for [str.strip()]: on an ASCII string, the characters 9-13,
    28-31 and 32. *)
Definition is_unicode_space (c : ascii) : bool :=
  let n := N_of_ascii c in
  (((9 <=? n) && (n <=? 13)) || ((28 <=? n) && (n <=? 32)))%N.

Fixpoint lstrip (s : string) : string :=
  match s with
  | EmptyString => EmptyString
  | String c s' => if is_unicode_space c then lstrip s' else s
  end.

Fixpoint rstrip (s : string) : string :=
  match s with
  | EmptyString => EmptyString
  | String c s' =>
      match rstrip s' with
      | EmptyString => if is_unicode_space c then EmptyString
                       else String c EmptyString
      | String c' r => String c (String c' r)
      end
  end.

(** [s.strip()] *)
Definition strip (s : string) : string := rstrip (lstrip s).

Definition lower_char (c : ascii) : ascii :=
  let n := N_of_ascii c in
  if ((65 <=? n) && (n <=? 90))%N then ascii_of_N (n + 32) else c.

(** [s.lower()] on an ASCII string. *)
Fixpoint lower (s : string) : string :=
  match s with
  | EmptyString => EmptyString
  | String c s' => String (lower_char c) (lower s')
  end.

(** [s.replace(c, d)] for one-character [c] and [d]. *)
Fixpoint replace_char (c d : ascii) (s : string) : string :=
  match s with
  | EmptyString => EmptyString
  | String c' s' =>
      String (if Ascii.eqb c' c then d else c') (replace_char c d s')
  end.

End PyStrMore.

(** [l[-k]] for [k >= 1]. *)
Definition index_from_end {A : Type} (l : list A) (k : nat) : result A :=
  if (k <=? List.length l)%nat then index l (List.length l - k)
  else Raise IndexError.

Definition extract_suburb_postcode (address : string)
  : result (string * string) :=
  let parts := PyStr.split "," (PyStrMore.strip address) in
  if (List.length parts <? 2)%nat then Ok ("sydney", "2000")
  else
    part_suburb <- index_from_end parts 2 ;;
    let suburb :=
      PyStrMore.replace_char " " "-"
        (PyStrMore.lower (PyStrMore.strip part_suburb)) in
    part_postcode <- index_from_end parts 1 ;;
    let postcode := PyStrMore.strip part_postcode in
    Ok (suburb, postcode).

(** ** The rest of the API: mock data *)

(** The [random] module: its generator state is threaded explicitly, and
    its two sources of randomness are kept abstract.  [randbelow n] is
    [_randbelow(n)]; [weighted_index w] is the index the bisection of
    [random.choices] finds among the cumulative weights. *)
Record Random (G : Type) : Type := {
  randbelow : nat -> G -> nat * G;
  weighted_index : list Z -> G -> nat * G
}.

Arguments randbelow {G} _ _ _.
Arguments weighted_index {G} _ _ _.

(** What the library guarantees of the two draws. *)
Definition lawful {G : Type} (R : Random G) : Prop :=
  (forall n g, (0 < n)%nat -> (fst (randbelow R n g) < n)%nat) /\
  (forall w g, w <> [] -> (fst (weighted_index R w g) < List.length w)%nat).

(** Computations that draw random numbers and may raise. *)
Definition rand (G A : Type) : Type := G -> result (A * G).

Definition ret {G A : Type} (a : A) : rand G A := fun g => Ok (a, g).

Definition bind_rand {G A B : Type} (m : rand G A) (k : A -> rand G B)
  : rand G B :=
  fun g =>
    match m g with
    | Ok (a, g') => k a g'
    | Raise e => Raise e
    end.

Definition lift {G A : Type} (r : result A) : rand G A :=
  fun g =>
    match r with
    | Ok a => Ok (a, g)
    | Raise e => Raise e
    end.

Notation "x <~ m ;; k" := (bind_rand m (fun x => k))
  (at level 61, m at next level, right associativity).
Notation "' p <~ m ;; k" := (bind_rand m (fun x => match x with p => k end))
  (at level 61, p pattern, m at next level, right associativity).

(** [random.randint(a, b)] *)
Definition randint {G : Type} (R : Random G) (a b : Z) : rand G Z :=
  fun g =>
    let width := b + 1 - a in
    if 0 <? width then
      let (r, g') := randbelow R (Z.to_nat width) g in
      Ok (a + Z.of_nat r, g')
    else Raise ValueError.

(** [random.choice(seq)] *)
Definition choice {G A : Type} (R : Random G) (seq : list A) : rand G A :=
  fun g =>
    match seq with
    | [] => Raise IndexError
    | _ :: _ =>
        let (i, g') := randbelow R (List.length seq) g in
        lift (index seq i) g'
    end.

(** [random.choices(population, weights=weights)[0]] *)
Definition choices1 {G A : Type} (R : Random G) (population : list A)
  (weights : list Z) : rand G A :=
  fun g =>
    if negb (List.length weights =? List.length population)%nat
    then Raise ValueError
    else if fold_right Z.add 0 weights <=? 0 then Raise ValueError
    else
      let (i, g') := weighted_index R weights g in
      lift (index population i) g'.

Definition suburbs : list string :=
  ["Bondi"; "Surry Hills"; "Paddington"; "Newtown"; "Glebe";
   "Manly"; "Chatswood"; "Parramatta"; "Hornsby"; "Cronulla";
   "Balmain"; "Leichhardt"; "Rozelle"; "Annandale"; "Dulwich Hill"].

Definition street_names : list string :=
  ["George Street"; "King Street"; "Queen Street"; "Park Avenue";
   "High Street"; "Church Street"; "Victoria Road"; "Oxford Street";
   "Crown Street"; "Bay Street"; "Hill Road"; "Beach Road"; "Forest Way";
   "Garden Street"; "River Road"].

Definition property_types : list string :=
  ["House"; "Apartment"; "Townhouse"; "Villa"; "Studio"].

Definition time_slots : list (string * string) :=
  [("09:00", "09:30"); ("09:30", "10:00"); ("10:00", "10:30");
   ("10:30", "11:00"); ("11:00", "11:30"); ("11:30", "12:00");
   ("12:00", "12:30"); ("12:30", "13:00"); ("13:00", "13:30");
   ("13:30", "14:00"); ("14:00", "14:30"); ("14:30", "15:00");
   ("15:00", "15:30"); ("15:30", "16:00")].

(** One iteration of the generation loop. *)
Definition mock_inspection {G : Type} (R : Random G) (date postcode : string)
  : rand G Inspection :=
  beds <~ choices1 R [1; 2; 3; 4; 5; 6] [10; 25; 30; 25; 8; 2] ;;
  baths <~ choices1 R [1; 2; 3; 4] [20; 50; 25; 5] ;;
  cars <~ choices1 R [0; 1; 2; 3; 4] [15; 35; 35; 12; 3] ;;
  street_number <~ randint R 1 999 ;;
  street <~ choice R street_names ;;
  suburb_name <~ choice R suburbs ;;
  type <~ choice R property_types ;;
  ' (slot_start, slot_end) <~ choice R time_slots ;;
  ret {| address :=
           PyStr.str street_number ++ " " ++ street ++ ", " ++ suburb_name
           ++ " NSW " ++ postcode;
         date := date;
         start_time := slot_start;
         end_time := slot_end;
         property_details :=
           Some {| bedrooms := Some beds;
                   bathrooms := Some baths;
                   car_spots := Some cars;
                   property_type := Some type |} |}.

Fixpoint mock_loop {G : Type} (R : Random G) (date postcode : string)
  (n : nat) (results : list Inspection) : rand G (list Inspection) :=
  match n with
  | O => ret results
  | S n' =>
      inspection <~ mock_inspection R date postcode ;;
      mock_loop R date postcode n' (results ++ [inspection])%list
  end.

(** [generate_mock_data]; [generate_mock_data_with_db] of
    [auth_integration.py] has the same body.  The suburb argument is not
    used. *)
Definition generate_mock_data {G : Type} (R : Random G)
  (date suburb postcode : string) : rand G (list Inspection) :=
  num_inspections <~ randint R 12 25 ;;
  mock_loop R date postcode (Z.to_nat num_inspections) [].

(** ** The rest of the API: request handlers *)

(** The query arguments of a request. *)
Record Request : Type := {
  arg_address : option string;
  arg_date : option string;
  arg_start_time : option string;
  arg_end_time : option string;
  arg_similar_bedrooms : option string;
  arg_similar_bathrooms : option string;
  arg_similar_car_spots : option string
}.

(** The data of a response. *)
Record Analysis : Type := {
  resp_inspections : list Inspection;
  resp_filtered_inspections : list Inspection;
  resp_competition_analysis : list Slot;
  resp_recommendations : list Slot;
  resp_total_inspections : Z;
  resp_similar_inspections : Z;
  resp_time_filter : TimeFilter;
  resp_criteria : Criteria
}.

Record Body : Type := {
  analysis : Analysis;
  search_address : string;
  search_suburb : string;
  search_postcode : string;
  search_date : string
}.

(** A response and its status: 200 with the data, 400 with a message, 500
    with the exception whose text is the message. *)
Inductive Response : Type :=
| Json200 (body : Body)
| Json400 (error : string)
| Json500 (e : exn).

(** [not s] for an optional string: absent or empty. *)
Definition falsy (s : option string) : bool :=
  match s with
  | None => true
  | Some EmptyString => true
  | Some (String _ _) => false
  end.

Definition request_time_filter (req : Request) : TimeFilter :=
  {| filter_start := Some (get (arg_start_time req) "09:00");
     filter_end := Some (get (arg_end_time req) "16:00") |}.

Definition request_criteria (req : Request) : Criteria :=
  {| similar_bedrooms := get (arg_similar_bedrooms req) "3-4";
     similar_bathrooms := get (arg_similar_bathrooms req) "2+";
     similar_car_spots := get (arg_similar_car_spots req) "1-2" |}.

(** The steps shared by the two handlers once the inspections are
    generated: filter, analyse, rank, build the response data. *)
Definition analyse {G : Type} (inspections : list Inspection)
  (similar_property_criteria : Criteria) (time_filter : TimeFilter)
  : rand G Analysis :=
  filtered_inspections <~
    lift (filter_similar_properties inspections similar_property_criteria) ;;
  competition_analysis <~
    lift (analyze_competition filtered_inspections time_filter) ;;
  let sorted_slots := sorted count competition_analysis in
  ret {| resp_inspections := inspections;
         resp_filtered_inspections := filtered_inspections;
         resp_competition_analysis := competition_analysis;
         resp_recommendations := firstn 5 sorted_slots;
         resp_total_inspections := Z.of_nat (List.length inspections);
         resp_similar_inspections :=
           Z.of_nat (List.length filtered_inspections);
         resp_time_filter := time_filter;
         resp_criteria := similar_property_criteria |}.

(** [get_inspections] of [clean_api.py]: the exceptions of the [try] block
    become a 500 response. *)
Definition get_inspections {G : Type} (R : Random G) (req : Request) (g : G)
  : result Response :=
  let address := arg_address req in
  let date := arg_date req in
  let time_filter := request_time_filter req in
  let similar_property_criteria := request_criteria req in
  if falsy address || falsy date then Ok (Json400 "Missing address or date")
  else
    ' (suburb, postcode) <- extract_suburb_postcode (get address "") ;;
    match
      (inspections <~ generate_mock_data R (get date "") suburb postcode ;;
       analyse inspections similar_property_criteria time_filter) g
    with
    | Ok (data, _) =>
        Ok (Json200 {| analysis := data;
                       search_address := get address "";
                       search_suburb := suburb;
                       search_postcode := postcode;
                       search_date := get date "" |})
    | Raise e => Ok (Json500 e)
    end.

(** [get_mock_data]: no [try] block, the exceptions propagate; [today] is
    the current date, printed. *)
Definition get_mock_data {G : Type} (R : Random G) (today : string)
  (req : Request) : rand G Analysis :=
  let date := get (arg_date req) today in
  let time_filter := request_time_filter req in
  let similar_property_criteria := request_criteria req in
  mock_inspections <~ generate_mock_data R date "suburb" "2000" ;;
  analyse mock_inspections similar_property_criteria time_filter.

(** ** Definitions used by the statements *)

(** The value of a decimal numeral read after the prefix of value [acc]. *)
Fixpoint uint_val (d : uint) (acc : Z) : Z :=
  match d with
  | Nil => acc
  | D0 l => uint_val l (10 * acc + 0)
  | D1 l => uint_val l (10 * acc + 1)
  | D2 l => uint_val l (10 * acc + 2)
  | D3 l => uint_val l (10 * acc + 3)
  | D4 l => uint_val l (10 * acc + 4)
  | D5 l => uint_val l (10 * acc + 5)
  | D6 l => uint_val l (10 * acc + 6)
  | D7 l => uint_val l (10 * acc + 7)
  | D8 l => uint_val l (10 * acc + 8)
  | D9 l => uint_val l (10 * acc + 9)
  end.

Definition is_digit (c : ascii) : bool :=
  match PyStr.digit_value c with
  | Some _ => true
  | None => false
  end.

Fixpoint string_forall (P : ascii -> bool) (s : string) : bool :=
  match s with
  | EmptyString => true
  | String c s' => P c && string_forall P s'
  end.

(** A character of an ASCII string. *)
Definition is_ascii (c : ascii) : bool := (N_of_ascii c <? 128)%N.

(** The characters [int] accepts somewhere in a literal. *)
Definition literal_char (c : ascii) : bool :=
  is_digit c || PyStr.is_space c || Ascii.eqb c "_"
  || Ascii.eqb c "+" || Ascii.eqb c "-".

(** An attribute of an inspection as the filter reads it: the documented
    default stands for an absent attribute or absent details. *)
Definition attribute (field : PropertyDetails -> option Z) (default : Z)
  (inspection : Inspection) : Z :=
  match property_details inspection with
  | Some details =>
      match field details with
      | Some v => v
      | None => default
      end
  | None => default
  end.

(** [v] lies in a parsed range, both ends included; the upper end may be
    infinite. *)
Definition within (v : Z) (parsed : Z * bound) : Prop :=
  fst parsed <= v /\
  match snd parsed with
  | Int hi => v <= hi
  | Inf => True
  end.

Definition retained (beds baths cars : Z * bound) (inspection : Inspection)
  : Prop :=
  within (attribute bedrooms 3 inspection) beds /\
  within (attribute bathrooms 2 inspection) baths /\
  within (attribute car_spots 1 inspection) cars.

(** [l1] is [l2] with some elements left out, the order kept. *)
Inductive Subseq {A : Type} : list A -> list A -> Prop :=
| Subseq_nil : Subseq [] []
| Subseq_skip x l1 l2 : Subseq l1 l2 -> Subseq l1 (x :: l2)
| Subseq_keep x l1 l2 : Subseq l1 l2 -> Subseq (x :: l1) (x :: l2).

(** A bucket of the window as an hour and a minute. *)
Definition pair_key (p : Z * Z) : string := time_key (fst p) (snd p).

(** The buckets one hour of the window contributes. *)
Definition hour_slots (end_hour hour : Z) : list (Z * Z) :=
  if hour =? end_hour then [(hour, 0)] else [(hour, 0); (hour, 30)].

(** The buckets of a window, in the order the nested loops visit them. *)
Definition window_times (start_hour end_hour : Z) : list (Z * Z) :=
  flat_map (hour_slots end_hour) (range start_hour (end_hour + 1)).

(** The [i]-th 30-minute boundary from [start_hour]:00 on. *)
Definition window_slot (start_hour : Z) (i : nat) : Z * Z :=
  (start_hour + Z.of_nat (i / 2), 30 * Z.of_nat (i mod 2)).

(** The bucket a record falls in: its hour, its minute rounded down to 0
    or 30; none when the start time does not parse. *)
Definition rounded_slot (inspection : Inspection) : option (Z * Z) :=
  match parse_start_time (start_time inspection) with
  | Ok (hour, minute) => Some (hour, if minute <? 30 then 0 else 30)
  | Raise _ => None
  end.

Definition in_slot (p : Z * Z) (inspection : Inspection) : bool :=
  match rounded_slot inspection with
  | Some (hour, minute) => (hour =? fst p) && (minute =? snd p)
  | None => false
  end.

(** The time slot dictionary in which the bucket [p] holds [members p]
    and has not been classified yet. *)
Definition slots_of (members : Z * Z -> list Inspection)
  (times : list (Z * Z)) : Dict.t Slot :=
  map (fun p => (pair_key p,
                 {| time := pair_key p;
                    count := Z.of_nat (List.length (members p));
                    competition := "low";
                    properties := members p |})) times.

(** The bucket [p] after aggregation of [inspections]. *)
Definition bucket_of (inspections : list Inspection) (p : Z * Z) : Slot :=
  let members := filter (in_slot p) inspections in
  {| time := pair_key p;
     count := Z.of_nat (List.length members);
     competition := competition_level (Z.of_nat (List.length members));
     properties := members |}.

Definition sum_counts (slots : list Slot) : Z :=
  fold_right Z.add 0 (map count slots).

(** The start time is two ':'-separated integers. *)
Definition parseable (s : string) : Prop :=
  exists a b hour minute,
    PyStr.split ":" s = [a; b] /\
    PyStr.int a = Ok hour /\ PyStr.int b = Ok minute.

(** The rounded start time of a record is a bucket of the window. *)
Definition in_window (start_hour end_hour : Z) (inspection : Inspection)
  : Prop :=
  exists hour minute,
    parse_start_time (start_time inspection) = Ok (hour, minute) /\
    start_hour <= hour <= end_hour /\ (hour = end_hour -> minute < 30).

(** Order by key, and the test of a given key, for the ranking. *)
Definition key_le {A : Type} (key : A -> Z) (a b : A) : Prop :=
  key a <= key b.

Definition has_key {A : Type} (key : A -> Z) (n : Z) (a : A) : bool :=
  key a =? n.

(** What the generation loop puts in a record. *)
Definition mock_record (on_date postcode : string) (i : Inspection) : Prop :=
  date i = on_date /\
  In (start_time i, end_time i) time_slots /\
  (exists number street suburb_name,
      1 <= number <= 999 /\ In street street_names /\
      In suburb_name suburbs /\
      address i = PyStr.str number ++ " " ++ street ++ ", " ++ suburb_name
                  ++ " NSW " ++ postcode) /\
  (exists beds baths cars type,
      1 <= beds <= 6 /\ 1 <= baths <= 4 /\ 0 <= cars <= 4 /\
      In type property_types /\
      property_details i
      = Some {| bedrooms := Some beds; bathrooms := Some baths;
                car_spots := Some cars; property_type := Some type |}).

(** What a bucket shows of the competition: its key, count and level. *)
Definition summary (b : Slot) : string * Z * string :=
  (time b, count b, competition b).

(** A string [strip] leaves as it is. *)
Definition stripped (s : string) : Prop :=
  PyStrMore.lstrip s = s /\ PyStrMore.rstrip s = s.

Definition is_upper (c : ascii) : bool :=
  let n := N_of_ascii c in ((65 <=? n) && (n <=? 90))%N.

(** A generator for the examples: a counter, each draw being the counter
    modulo the bound. *)
Definition counter_random : Random nat :=
  {| randbelow := fun n g => (Nat.modulo g n, S g);
     weighted_index := fun w g => (Nat.modulo g (List.length w), S g) |}.

Definition sample_request : Request :=
  {| arg_address := Some "12 King Street, Surry Hills, 2010";
     arg_date := Some "2024-01-20";
     arg_start_time := None;
     arg_end_time := None;
     arg_similar_bedrooms := None;
     arg_similar_bathrooms := None;
     arg_similar_car_spots := None |}.

(** A query the pipeline cannot run: a range spec or a window hour does
    not parse. *)
Definition malformed (c : Criteria) (tf : TimeFilter) : Prop :=
  raises (parse_criteria_value (similar_bedrooms c)) \/
  raises (parse_criteria_value (similar_bathrooms c)) \/
  raises (parse_criteria_value (similar_car_spots c)) \/
  raises (window_hour (get (filter_start tf) "09:00")) \/
  raises (window_hour (get (filter_end tf) "16:00")).

(** A viewing of the mock data: half an hour from a half-hour boundary
    between 09:00 and 15:30. *)
Definition half_hour_viewing (i : Inspection) : Prop :=
  exists hour minute,
    parse_start_time (start_time i) = Ok (hour, minute) /\
    9 <= hour <= 15 /\ (minute = 0 \/ minute = 30) /\
    end_time i = time_key (if minute =? 30 then hour + 1 else hour)
                   (30 - minute).

(** ** Sample data *)

Definition details_of (beds baths cars : Z) : option PropertyDetails :=
  Some {| bedrooms := Some beds; bathrooms := Some baths;
          car_spots := Some cars; property_type := Some "House" |}.

Definition inspection_at (start : string) (details : option PropertyDetails)
  : Inspection :=
  {| address := "12 King Street, Newtown NSW 2000";
     date := "2024-01-20";
     start_time := start;
     end_time := "";
     property_details := details |}.

(** The defaults of the request handler. *)
Definition default_criteria : Criteria :=
  {| similar_bedrooms := "3-4";
     similar_bathrooms := "2+";
     similar_car_spots := "1-2" |}.

Definition default_window : TimeFilter :=
  {| filter_start := None; filter_end := None |}.

Definition morning_window : TimeFilter :=
  {| filter_start := Some "09:00"; filter_end := Some "11:00" |}.

Definition morning_inspections : list Inspection :=
  [ inspection_at "09:05" (details_of 3 2 1);
    inspection_at "09:05" None;
    inspection_at "09:40" (details_of 5 2 1);
    inspection_at "10:05" (details_of 4 3 2) ].

(** ** Examples *)

Example int_ex1 : PyStr.int " 12 " = Ok 12. Proof. reflexivity. Qed.
Example int_ex2 : PyStr.int "-7" = Ok (-7). Proof. reflexivity. Qed.
Example int_ex3 : PyStr.int "1_000" = Ok 1000. Proof. reflexivity. Qed.
Example int_ex4 : PyStr.int "1__0" = Raise ValueError. Proof. reflexivity. Qed.
Example int_ex5 : PyStr.int "" = Raise ValueError. Proof. reflexivity. Qed.
Example int_ex6 : PyStr.int "3a" = Raise ValueError. Proof. reflexivity. Qed.
Example int_ex7 : PyStr.int "_3" = Raise ValueError. Proof. reflexivity. Qed.
Example int_ex8 : PyStr.int "3_" = Raise ValueError. Proof. reflexivity. Qed.
Example split_ex1 : PyStr.split "-" "1-2-3" = ["1"; "2"; "3"]. Proof. reflexivity. Qed.
Example split_ex2 : PyStr.split "-" "-5" = [""; "5"]. Proof. reflexivity. Qed.
Example split_ex3 : PyStr.split ":" "" = [""]. Proof. reflexivity. Qed.
Example fmt_ex1 : PyStr.format_02d 9 = "09". Proof. reflexivity. Qed.
Example fmt_ex2 : PyStr.format_02d 16 = "16". Proof. reflexivity. Qed.
Example fmt_ex3 : PyStr.format_02d (-1) = "-1". Proof. reflexivity. Qed.
Example fmt_ex4 : PyStr.format_02d 0 = "00". Proof. reflexivity. Qed.
Example fmt_ex5 : PyStr.format_02d 123 = "123". Proof. reflexivity. Qed.

Example parse_ex1 : parse_criteria_value "3-4" = Ok (3, Int 4).
Proof. reflexivity. Qed.
Example parse_ex2 : parse_criteria_value "2+" = Ok (2, Inf).
Proof. reflexivity. Qed.
Example parse_ex3 : parse_criteria_value "3" = Ok (3, Int 3).
Proof. reflexivity. Qed.
Example parse_ex4 : parse_criteria_value "a-4" = Raise ValueError.
Proof. reflexivity. Qed.
Example parse_ex5 : parse_criteria_value "-5" = Raise ValueError.
Proof. reflexivity. Qed.
Example parse_ex6 : parse_criteria_value "2+3" = Ok (23, Inf).
Proof. reflexivity. Qed.

Example filter_ex1 :
  filter_similar_properties morning_inspections default_criteria
  = Ok [ inspection_at "09:05" (details_of 3 2 1);
         inspection_at "09:05" None;
         inspection_at "10:05" (details_of 4 3 2) ].
Proof. reflexivity. Qed.

(** The end-to-end scenario: start times 09:05, 09:05, 09:40, 10:05 in the
    window 09:00-11:00. *)
Example analyze_ex1 :
  option_map (map (fun b => (time b, count b, competition b)))
    (match analyze_competition morning_inspections morning_window with
     | Ok slots => Some slots
     | Raise _ => None
     end)
  = Some [("09:00", 2, "low"); ("09:30", 1, "low"); ("10:00", 1, "low");
          ("10:30", 0, "low"); ("11:00", 0, "low")].
Proof. vm_compute. reflexivity. Qed.

Example recommendations_ex1 :
  option_map (fun slots => map (fun b => (time b, count b)) (recommendations slots))
    (match analyze_competition morning_inspections morning_window with
     | Ok slots => Some slots
     | Raise _ => None
     end)
  = Some [("10:30", 0); ("11:00", 0); ("09:30", 1); ("10:00", 1); ("09:00", 2)].
Proof. vm_compute. reflexivity. Qed.

Example levels_ex1 :
  competition_level 2 = "low" /\ competition_level 3 = "medium" /\
  competition_level 5 = "medium" /\ competition_level 6 = "high" /\
  competition_level 10 = "high" /\ competition_level 11 = "very-high".
Proof. repeat split. Qed.

Example extract_ex1 :
  extract_suburb_postcode "12 King Street, Surry Hills, 2010"
  = Ok ("surry-hills", "2010").
Proof. reflexivity. Qed.
Example extract_ex2 : extract_suburb_postcode "Bondi" = Ok ("sydney", "2000").
Proof. reflexivity. Qed.
Example extract_ex3 :
  extract_suburb_postcode "  1 Bay Street , Glebe NSW 2037  "
  = Ok ("1-bay-street", "Glebe NSW 2037").
Proof. reflexivity. Qed.
Example strip_ex1 : PyStrMore.strip "  a b  " = "a b".
Proof. reflexivity. Qed.
Example mock_ex1 :
  match generate_mock_data counter_random "2024-01-20" "sydney" "2000" 0%nat with
  | Ok (results, _) => List.length results
  | Raise _ => 0%nat
  end = 12%nat.
Proof. vm_compute. reflexivity. Qed.

(** ** Facts on the string built-ins *)

Section StringFacts.

Lemma contains_forall (P : ascii -> bool) (c : ascii) (s : string) :
  P c = false -> string_forall P s = true -> PyStr.contains c s = false.
Proof.
  intros Hc. induction s as [| c' s IH]; simpl; [reflexivity |].
  intros H. apply andb_true_iff in H as [Hc' Hs].
  destruct (Ascii.eqb_spec c' c) as [-> | _]; [congruence | auto].
Qed.

Lemma remove_char_absent (c : ascii) (s : string) :
  PyStr.contains c s = false -> PyStr.remove_char c s = s.
Proof.
  induction s as [| c' s IH]; simpl; [reflexivity |].
  destruct (Ascii.eqb c' c); [discriminate |].
  intros H. now rewrite IH.
Qed.

Lemma contains_app (c : ascii) (a b : string) :
  PyStr.contains c (a ++ b) = PyStr.contains c a || PyStr.contains c b.
Proof.
  induction a as [| c' a IH]; simpl; [reflexivity |].
  destruct (Ascii.eqb c' c); [reflexivity | exact IH].
Qed.

Lemma remove_char_app (c : ascii) (a b : string) :
  PyStr.remove_char c (a ++ b) = PyStr.remove_char c a ++ PyStr.remove_char c b.
Proof.
  induction a as [| c' a IH]; simpl; [reflexivity |].
  destruct (Ascii.eqb c' c); simpl; now rewrite IH.
Qed.

Lemma split_absent (sep : ascii) (s : string) :
  PyStr.contains sep s = false -> PyStr.split sep s = [s].
Proof.
  unfold PyStr.split. induction s as [| c s IH]; simpl; [reflexivity |].
  destruct (Ascii.eqb c sep); [discriminate |].
  intros H. specialize (IH H).
  destruct (PyStr.split_fields sep s) as [f fs]. now inversion IH.
Qed.

Lemma split_app (sep : ascii) (a b : string) :
  PyStr.contains sep a = false ->
  PyStr.split sep (a ++ String sep b) = a :: PyStr.split sep b.
Proof.
  unfold PyStr.split. induction a as [| c a IH]; simpl.
  - intros _. rewrite Ascii.eqb_refl.
    now destruct (PyStr.split_fields sep b).
  - destruct (Ascii.eqb c sep); [discriminate |].
    intros H. specialize (IH H).
    destruct (PyStr.split_fields sep (a ++ String sep b)) as [f fs].
    destruct (PyStr.split_fields sep b) as [g gs].
    now inversion IH.
Qed.

(** [split] never returns the empty list, and returns at least two fields
    when the separator occurs. *)
Lemma split_cons (sep : ascii) (s : string) :
  exists field fields, PyStr.split sep s = field :: fields.
Proof.
  unfold PyStr.split. destruct (PyStr.split_fields sep s) as [f fs]. eauto.
Qed.

Lemma split_present (sep : ascii) (s : string) :
  PyStr.contains sep s = true ->
  exists a b fields, PyStr.split sep s = a :: b :: fields.
Proof.
  unfold PyStr.split. induction s as [| c s IH]; simpl; [discriminate |].
  destruct (Ascii.eqb c sep).
  - intros _. destruct (PyStr.split_fields sep s) as [f fs]. eauto.
  - intros H. destruct (IH H) as (a & b & fs & E).
    destruct (PyStr.split_fields sep s) as [f gs].
    inversion E; subst. eauto.
Qed.

End StringFacts.

(** ** [int] reads back what [str] and the [02d] format print *)

Section IntStr.

Lemma scan_uint (d : uint) (acc : Z) :
  PyStr.scan_digits (NilEmpty.string_of_uint d) acc false
  = Some (uint_val d acc, EmptyString).
Proof.
  revert acc. induction d; intros acc; cbn [NilEmpty.string_of_uint uint_val];
    [reflexivity | ..];
    cbn [PyStr.scan_digits]; match goal with
    | |- context [PyStr.digit_value ?c] =>
        let v := eval vm_compute in (PyStr.digit_value c) in
        change (PyStr.digit_value c) with v
    end; cbv iota; apply IHd.
Qed.

Lemma uint_val_pos (d : uint) (p : positive) :
  uint_val d (Zpos p) = Zpos (Pos.of_uint_acc d p).
Proof.
  revert p. induction d; intros p; cbn [uint_val Pos.of_uint_acc];
    [reflexivity | ..];
    match goal with
    | |- uint_val _ ?a = Zpos (Pos.of_uint_acc _ ?q) =>
        replace a with (Zpos q) by lia
    end; apply IHd.
Qed.

Lemma uint_val_0 (d : uint) : uint_val d 0 = Z.of_uint d.
Proof.
  unfold Z.of_uint.
  induction d; cbn [uint_val Pos.of_uint]; [reflexivity | exact IHd | ..];
    match goal with
    | |- uint_val _ ?a = _ =>
        let v := eval vm_compute in a in change a with v
    end; rewrite uint_val_pos; reflexivity.
Qed.

Lemma string_of_uint_digits (d : uint) :
  string_forall is_digit (NilEmpty.string_of_uint d) = true.
Proof. induction d; simpl; auto. Qed.

Lemma digit_not_space (c : ascii) :
  is_digit c = true -> PyStr.is_space c = false.
Proof.
  destruct c as [[|] [|] [|] [|] [|] [|] [|] [|]]; vm_compute; congruence.
Qed.

Lemma digit_not_sign (c : ascii) (s : string) :
  is_digit c = true -> PyStr.strip_sign (String c s) = (false, String c s).
Proof.
  destruct c as [[|] [|] [|] [|] [|] [|] [|] [|]]; vm_compute; congruence.
Qed.

Lemma int_unsigned (c : ascii) (s : string) (v : Z) :
  is_digit c = true ->
  PyStr.scan_digits (String c s) 0 false = Some (v, EmptyString) ->
  PyStr.int (String c s) = Ok v.
Proof.
  intros Hc Hs. unfold PyStr.int.
  cbn [PyStr.lstrip]. rewrite (digit_not_space c Hc), (digit_not_sign c s Hc).
  unfold is_digit in Hc. destruct (PyStr.digit_value c) eqn:E; [| discriminate].
  rewrite Hs. reflexivity.
Qed.

Lemma int_negative (c : ascii) (s : string) (v : Z) :
  is_digit c = true ->
  PyStr.scan_digits (String c s) 0 false = Some (v, EmptyString) ->
  PyStr.int (String "-" (String c s)) = Ok (- v).
Proof.
  intros Hc Hs. unfold PyStr.int.
  change (PyStr.lstrip (String "-" (String c s))) with (String "-" (String c s)).
  cbn [PyStr.strip_sign].
  unfold is_digit in Hc. destruct (PyStr.digit_value c) eqn:E; [| discriminate].
  rewrite Hs. reflexivity.
Qed.

Lemma string_of_uint_head (d : uint) :
  d <> Nil ->
  exists c s, NilEmpty.string_of_uint d = String c s /\ is_digit c = true.
Proof.
  destruct d; [congruence | ..]; intros _; cbn [NilEmpty.string_of_uint];
    eexists; eexists; split; reflexivity.
Qed.

Lemma int_of_uint (d : uint) :
  d <> Nil -> PyStr.int (NilEmpty.string_of_uint d) = Ok (Z.of_uint d).
Proof.
  intros Hd. destruct (string_of_uint_head d Hd) as (c & s & E & Hc).
  pose proof (scan_uint d 0) as Hs. rewrite uint_val_0 in Hs.
  rewrite E in Hs |- *. now apply int_unsigned.
Qed.

Lemma int_of_neg_uint (d : uint) :
  d <> Nil ->
  PyStr.int (String "-" (NilEmpty.string_of_uint d)) = Ok (- Z.of_uint d).
Proof.
  intros Hd. destruct (string_of_uint_head d Hd) as (c & s & E & Hc).
  pose proof (scan_uint d 0) as Hs. rewrite uint_val_0 in Hs.
  rewrite E in Hs |- *. now apply int_negative.
Qed.

Lemma str_pos (p : positive) :
  PyStr.str (Zpos p) = NilEmpty.string_of_uint (Pos.to_uint p).
Proof.
  unfold PyStr.str. cbn [Z.to_int NilZero.string_of_int].
  unfold NilZero.string_of_uint.
  pose proof (Unsigned.to_uint_nonnil p).
  destruct (Pos.to_uint p); [congruence | reflexivity ..].
Qed.

Lemma str_neg (p : positive) :
  PyStr.str (Zneg p) = String "-" (NilEmpty.string_of_uint (Pos.to_uint p)).
Proof.
  unfold PyStr.str. cbn [Z.to_int NilZero.string_of_int].
  unfold NilZero.string_of_uint.
  pose proof (Unsigned.to_uint_nonnil p).
  destruct (Pos.to_uint p); [congruence | reflexivity ..].
Qed.

Lemma of_uint_to_uint (p : positive) : Z.of_uint (Pos.to_uint p) = Zpos p.
Proof. unfold Z.of_uint. now rewrite Unsigned.of_to. Qed.

(** [int(str(n)) == n]. *)
Lemma int_str (n : Z) : PyStr.int (PyStr.str n) = Ok n.
Proof.
  destruct n as [| p | p].
  - reflexivity.
  - rewrite str_pos, int_of_uint by apply Unsigned.to_uint_nonnil.
    now rewrite of_uint_to_uint.
  - rewrite str_neg, int_of_neg_uint by apply Unsigned.to_uint_nonnil.
    now rewrite of_uint_to_uint.
Qed.

(** A non-negative number prints as digits only. *)
Lemma str_digits (n : Z) :
  0 <= n -> string_forall is_digit (PyStr.str n) = true.
Proof.
  destruct n as [| p | p]; intros H; [reflexivity | | lia].
  rewrite str_pos. apply string_of_uint_digits.
Qed.

Lemma int_zero_padded (n : Z) :
  0 <= n -> PyStr.int (String "0" (PyStr.str n)) = Ok n.
Proof.
  intros H. destruct n as [| p | p]; [reflexivity | | lia].
  rewrite str_pos.
  change (String "0" (NilEmpty.string_of_uint (Pos.to_uint p)))
    with (NilEmpty.string_of_uint (D0 (Pos.to_uint p))).
  rewrite int_of_uint by discriminate.
  unfold Z.of_uint. cbn [Pos.of_uint]. f_equal. apply of_uint_to_uint.
Qed.

(** [int(f"{n:02d}") == n]. *)
Lemma int_format_02d (n : Z) : PyStr.int (PyStr.format_02d n) = Ok n.
Proof.
  unfold PyStr.format_02d.
  destruct (n <? 0) eqn:E0; [apply int_str |].
  destruct (n <? 10); [| apply int_str].
  apply int_zero_padded. lia.
Qed.

End IntStr.

(** ** Time keys *)

Section TimeKeys.

Lemma str_chars (n : Z) :
  string_forall (fun c => is_digit c || Ascii.eqb c "-") (PyStr.str n) = true.
Proof.
  assert (D : forall d, string_forall (fun c => is_digit c || Ascii.eqb c "-")
                          (NilEmpty.string_of_uint d) = true)
    by (induction d; simpl; auto).
  destruct n as [| p | p]; [reflexivity | |].
  - rewrite str_pos. apply D.
  - rewrite str_neg. simpl. apply D.
Qed.

Lemma format_02d_chars (n : Z) :
  string_forall (fun c => is_digit c || Ascii.eqb c "-") (PyStr.format_02d n)
  = true.
Proof.
  unfold PyStr.format_02d.
  destruct (n <? 0); [apply str_chars |].
  destruct (n <? 10); [| apply str_chars].
  simpl. apply str_chars.
Qed.

Lemma format_02d_no_colon (n : Z) :
  PyStr.contains ":" (PyStr.format_02d n) = false.
Proof.
  apply contains_forall with (P := fun c => is_digit c || Ascii.eqb c "-");
    [reflexivity | apply format_02d_chars].
Qed.

Lemma split_time_key (hour minute : Z) :
  PyStr.split ":" (time_key hour minute)
  = [PyStr.format_02d hour; PyStr.format_02d minute].
Proof.
  unfold time_key. cbn [append].
  rewrite split_app by apply format_02d_no_colon.
  now rewrite split_absent by apply format_02d_no_colon.
Qed.

(** A key printed by the program parses back to its hour and minute. *)
Lemma parse_time_key (hour minute : Z) :
  parse_start_time (time_key hour minute) = Ok (hour, minute).
Proof.
  unfold parse_start_time. rewrite split_time_key.
  cbn [unpack2_map_int]. now rewrite !int_format_02d.
Qed.

Lemma time_key_inj (h m h' m' : Z) :
  time_key h m = time_key h' m' -> h = h' /\ m = m'.
Proof.
  intros E. pose proof (parse_time_key h m) as P.
  rewrite E, parse_time_key in P. now inversion P.
Qed.

Lemma time_key_eqb (h m h' m' : Z) :
  String.eqb (time_key h m) (time_key h' m') = (h =? h') && (m =? m').
Proof.
  destruct (String.eqb_spec (time_key h m) (time_key h' m')) as [E | N].
  - apply time_key_inj in E as [-> ->]. now rewrite !Z.eqb_refl.
  - symmetry. apply andb_false_iff.
    destruct (Z.eqb_spec h h') as [-> |]; [| now left].
    destruct (Z.eqb_spec m m') as [-> |]; [| now right].
    congruence.
Qed.

End TimeKeys.

(** ** The range parser *)

Section ParseCriteria.

Lemma append_empty (s : string) : s ++ "" = s.
Proof. induction s; simpl; congruence. Qed.

Lemma digits_no_sign (s : string) (c : ascii) :
  is_digit c = false ->
  string_forall is_digit s = true -> PyStr.contains c s = false.
Proof. intros. now apply contains_forall with (P := is_digit). Qed.

Lemma parse_exact (n : Z) :
  0 <= n -> parse_criteria_value (PyStr.str n) = Ok (n, Int n).
Proof.
  intros H. unfold parse_criteria_value.
  rewrite !digits_no_sign by (apply str_digits; lia) || reflexivity.
  now rewrite int_str.
Qed.

Lemma parse_open (n : Z) :
  0 <= n -> parse_criteria_value (PyStr.str n ++ "+") = Ok (n, Inf).
Proof.
  intros H. unfold parse_criteria_value.
  rewrite contains_app, orb_true_r.
  rewrite remove_char_app, remove_char_absent
    by (apply digits_no_sign; [reflexivity | now apply str_digits]).
  cbn [PyStr.remove_char Ascii.eqb Bool.eqb]. rewrite append_empty.
  now rewrite int_str.
Qed.

Lemma parse_bounded (n m : Z) :
  0 <= n -> 0 <= m ->
  parse_criteria_value (PyStr.str n ++ "-" ++ PyStr.str m) = Ok (n, Int m).
Proof.
  intros Hn Hm. unfold parse_criteria_value. cbn [append].
  assert (Np : forall k, 0 <= k -> PyStr.contains "+" (PyStr.str k) = false)
    by (intros; apply digits_no_sign; [reflexivity | now apply str_digits]).
  assert (Nd : forall k, 0 <= k -> PyStr.contains "-" (PyStr.str k) = false)
    by (intros; apply digits_no_sign; [reflexivity | now apply str_digits]).
  rewrite contains_app. cbn [PyStr.contains Ascii.eqb Bool.eqb].
  rewrite !Np by assumption. cbn [orb].
  rewrite contains_app. cbn [PyStr.contains Ascii.eqb Bool.eqb].
  rewrite orb_true_r.
  rewrite split_app, split_absent by auto.
  cbn [index nth_error bind]. now rewrite !int_str.
Qed.

End ParseCriteria.

(** ** What [int] rejects *)

Section IntRejects.

Lemma int_raises_value_error (s : string) (e : exn) :
  PyStr.int s = Raise e -> e = ValueError.
Proof.
  unfold PyStr.int. destruct (PyStr.strip_sign (PyStr.lstrip s)) as [neg body].
  destruct body as [| c body']; [congruence |].
  destruct (PyStr.digit_value c); [| congruence].
  destruct (PyStr.scan_digits (String c body') 0 false) as [[v rest] |];
    [| congruence].
  destruct (PyStr.lstrip rest); congruence.
Qed.

Lemma int_total (s : string) :
  PyStr.int s = Raise ValueError \/ exists v, PyStr.int s = Ok v.
Proof.
  destruct (PyStr.int s) as [v | e] eqn:E; [right; eauto | left].
  now rewrite (int_raises_value_error s e E).
Qed.

Lemma lstrip_forall (P : ascii -> bool) (s : string) :
  (forall c, PyStr.is_space c = true -> P c = true) ->
  string_forall P (PyStr.lstrip s) = true -> string_forall P s = true.
Proof.
  intros HP. induction s as [| c s IH]; simpl; [reflexivity |].
  destruct (PyStr.is_space c) eqn:E; [| exact (fun H => H)].
  intros H. rewrite (HP c E), IH by assumption. reflexivity.
Qed.

Lemma lstrip_empty (s : string) :
  PyStr.lstrip s = EmptyString -> string_forall PyStr.is_space s = true.
Proof.
  induction s as [| c s IH]; simpl; [reflexivity |].
  destruct (PyStr.is_space c); [exact IH | discriminate].
Qed.

Lemma string_forall_impl (P Q : ascii -> bool) (s : string) :
  (forall c, P c = true -> Q c = true) ->
  string_forall P s = true -> string_forall Q s = true.
Proof.
  intros HPQ. induction s as [| c s IH]; simpl; [reflexivity |].
  intros H. apply andb_true_iff in H as [Hc Hs].
  now rewrite (HPQ c Hc), IH.
Qed.

Lemma space_literal (c : ascii) :
  PyStr.is_space c = true -> literal_char c = true.
Proof.
  unfold literal_char. intros ->.
  now rewrite orb_true_r.
Qed.

Lemma strip_sign_forall (t body : string) (neg : bool) :
  PyStr.strip_sign t = (neg, body) ->
  string_forall literal_char body = true ->
  string_forall literal_char t = true.
Proof.
  destruct t as [| c t]; [now intros [= _ <-] |].
  destruct c as [[|] [|] [|] [|] [|] [|] [|] [|]];
    cbn [PyStr.strip_sign]; intros [= _ <-]; auto.
Qed.

Lemma scan_digits_forall (s : string) :
  forall acc prev_us v rest,
    PyStr.scan_digits s acc prev_us = Some (v, rest) ->
    string_forall literal_char rest = true ->
    string_forall literal_char s = true.
Proof.
  induction s as [| c s IH]; intros acc b v rest; cbn [PyStr.scan_digits].
  - reflexivity.
  - cbn [string_forall].
    destruct (PyStr.digit_value c) as [d |] eqn:D.
    + intros H R.
      assert (L : literal_char c = true)
        by (unfold literal_char, is_digit; now rewrite D).
      rewrite L. cbn [andb]. eapply IH; eassumption.
    + destruct (Ascii.eqb c "_") eqn:U.
      * destruct b; [discriminate |]. intros H R.
        assert (L : literal_char c = true)
          by (unfold literal_char; rewrite U; now rewrite !orb_true_r).
        rewrite L. cbn [andb]. eapply IH; eassumption.
      * destruct b; [discriminate |]. intros [= _ <-] R. exact R.
Qed.

(** A literal [int] accepts holds only digits, white space, underscores and
    signs: any other character makes it raise. *)
Lemma int_literal_chars (s : string) (v : Z) :
  PyStr.int s = Ok v -> string_forall literal_char s = true.
Proof.
  unfold PyStr.int.
  destruct (PyStr.strip_sign (PyStr.lstrip s)) as [neg body] eqn:S.
  destruct body as [| c body']; [discriminate |].
  destruct (PyStr.digit_value c); [| discriminate].
  destruct (PyStr.scan_digits (String c body') 0 false) as [[w rest] |] eqn:D;
    [| discriminate].
  destruct (PyStr.lstrip rest) eqn:R; [| discriminate].
  intros _. apply lstrip_forall; [apply space_literal |].
  eapply strip_sign_forall; [exact S |].
  eapply scan_digits_forall; [exact D |].
  eapply string_forall_impl; [apply space_literal | now apply lstrip_empty].
Qed.

Lemma int_bad_char (s : string) :
  string_forall literal_char s = false -> PyStr.int s = Raise ValueError.
Proof.
  intros H. destruct (int_total s) as [E | [v E]]; [exact E |].
  apply int_literal_chars in E. congruence.
Qed.

Lemma int_empty : PyStr.int "" = Raise ValueError.
Proof. reflexivity. Qed.

End IntRejects.

(** C8: on a valid range spec the parser is a function of its input and is
    self-consistent: for a non-negative integer N printed in decimal, of
    at most 4300 digits (the interpreter's default limit for [int]),
    "N" parses to (N, N), "N+" to (N, +inf), and "N-M" to (N, M) whenever
    M >= N, M being of at most 4300 digits too. *)
Theorem parse_criteria_value_consistent (n m : Z) :
  0 <= n ->
  (String.length (PyStr.str n) <= 4300)%nat ->
  parse_criteria_value (PyStr.str n) = Ok (n, Int n) /\
  parse_criteria_value (PyStr.str n ++ "+") = Ok (n, Inf) /\
  (n <= m ->
   (String.length (PyStr.str m) <= 4300)%nat ->
   parse_criteria_value (PyStr.str n ++ "-" ++ PyStr.str m) = Ok (n, Int m)) /\
  (forall s r1 r2,
     parse_criteria_value s = r1 -> parse_criteria_value s = r2 -> r1 = r2).
Proof.
  intros Hn _. repeat split.
  - now apply parse_exact.
  - now apply parse_open.
  - intros Hm _. apply parse_bounded; lia.
  - congruence.
Qed.

Lemma parse_criteria_value_consistent_witness :
  parse_criteria_value (PyStr.str 3) = Ok (3, Int 3) /\
  parse_criteria_value (PyStr.str 3 ++ "+") = Ok (3, Inf) /\
  (3 <= 4 ->
   (String.length (PyStr.str 4) <= 4300)%nat ->
   parse_criteria_value (PyStr.str 3 ++ "-" ++ PyStr.str 4) = Ok (3, Int 4)) /\
  (forall s r1 r2,
     parse_criteria_value s = r1 -> parse_criteria_value s = r2 -> r1 = r2).
Proof.
  apply (parse_criteria_value_consistent 3 4); [lia | vm_compute; lia].
Defined.

(** C1, as stated, fails: the descending range "5-3" is returned as
    (5, 3), and a third part is ignored. *)
Lemma parse_descending_range_accepted :
  parse_criteria_value "5-3" = Ok (5, Int 3) /\
  ~ raises (parse_criteria_value "5-3") /\
  parse_criteria_value "1-2-3" = Ok (1, Int 2).
Proof.
  repeat split; try reflexivity.
  intros [e H]. discriminate H.
Qed.

(** C1, amended: in the '-' form (no '+', at least one '-') the split has
    at least two parts, and the parser raises ValueError exactly when [int]
    rejects the first or the second part; a part that is empty, or that is
    ASCII and holds a character other than a digit, white space, an
    underscore or a sign, is rejected.  When both parts parse, (N, M) is
    returned whatever their order, and the parts after the second are
    ignored. *)
Theorem parse_criteria_value_dash_form (s : string) :
  PyStr.contains "+" s = false ->
  PyStr.contains "-" s = true ->
  exists a b others,
    PyStr.split "-" s = a :: b :: others /\
    (forall n m, PyStr.int a = Ok n -> PyStr.int b = Ok m ->
                 parse_criteria_value s = Ok (n, Int m)) /\
    (parse_criteria_value s = Raise ValueError <->
     PyStr.int a = Raise ValueError \/ PyStr.int b = Raise ValueError) /\
    (a = "" \/ b = "" \/
     (string_forall is_ascii a = true /\
      string_forall literal_char a = false) \/
     (string_forall is_ascii b = true /\
      string_forall literal_char b = false) ->
     parse_criteria_value s = Raise ValueError).
Proof.
  intros Hp Hd. destruct (split_present "-" s Hd) as (a & b & others & E).
  exists a, b, others. split; [exact E |].
  assert (P : parse_criteria_value s
              = (lo <- PyStr.int a ;; hi <- PyStr.int b ;; Ok (lo, Int hi))).
  { unfold parse_criteria_value. rewrite Hp, Hd, E. reflexivity. }
  assert (R : parse_criteria_value s = Raise ValueError <->
              PyStr.int a = Raise ValueError \/ PyStr.int b = Raise ValueError).
  { rewrite P. destruct (int_total a) as [-> | [n ->]];
      destruct (int_total b) as [-> | [m ->]]; cbn [bind];
      intuition congruence. }
  split; [| split; [exact R |]].
  - intros n m Ha Hb. rewrite P, Ha, Hb. reflexivity.
  - intros H. apply R.
    destruct H as [-> | [-> | [[_ H] | [_ H]]]];
      [left; apply int_empty | right; apply int_empty
      | left; now apply int_bad_char | right; now apply int_bad_char].
Qed.

Lemma parse_criteria_value_dash_form_witness :
  exists a b others,
    PyStr.split "-" "5-x" = a :: b :: others /\
    (forall n m, PyStr.int a = Ok n -> PyStr.int b = Ok m ->
                 parse_criteria_value "5-x" = Ok (n, Int m)) /\
    (parse_criteria_value "5-x" = Raise ValueError <->
     PyStr.int a = Raise ValueError \/ PyStr.int b = Raise ValueError) /\
    (a = "" \/ b = "" \/
     (string_forall is_ascii a = true /\
      string_forall literal_char a = false) \/
     (string_forall is_ascii b = true /\
      string_forall literal_char b = false) ->
     parse_criteria_value "5-x" = Raise ValueError).
Proof. apply (parse_criteria_value_dash_form "5-x"); reflexivity. Defined.

(** ** The similarity filter *)

Section Filter.

Lemma Subseq_refl {A : Type} (l : list A) : Subseq l l.
Proof. induction l; constructor; assumption. Qed.

Lemma Subseq_filter {A : Type} (keep : A -> bool) (l : list A) :
  Subseq (filter keep l) l.
Proof.
  induction l as [| x l IH]; simpl; [constructor |].
  destruct (keep x); constructor; assumption.
Qed.

(** The loop that appends the matching inspections is a filter. *)
Lemma append_loop_filter {A : Type} (keep : A -> bool) (l acc : list A) :
  fold_left (fun out x => if keep x then (out ++ [x])%list else out) l acc
  = (acc ++ filter keep l)%list.
Proof.
  revert acc. induction l as [| x l IH]; intros acc; simpl.
  - now rewrite app_nil_r.
  - rewrite IH. destruct (keep x); [| reflexivity].
    now rewrite <- app_assoc.
Qed.

Lemma filter_similar_properties_eq (inspections : list Inspection)
  (c : Criteria) (beds baths cars : Z * bound) :
  parse_criteria_value (similar_bedrooms c) = Ok beds ->
  parse_criteria_value (similar_bathrooms c) = Ok baths ->
  parse_criteria_value (similar_car_spots c) = Ok cars ->
  filter_similar_properties inspections c
  = Ok (filter (matches_criteria (fst beds) (snd beds) (fst baths) (snd baths)
                  (fst cars) (snd cars)) inspections).
Proof.
  intros Hb Ht Hc. unfold filter_similar_properties.
  rewrite Hb, Ht, Hc. destruct beds, baths, cars. cbn [bind fst snd].
  now rewrite append_loop_filter.
Qed.

Lemma within_spec (lo : Z) (hi : bound) (v : Z) :
  (lo <=? v) && le_bound v hi = true <-> within v (lo, hi).
Proof.
  unfold within. cbn [fst snd]. rewrite andb_true_iff, Z.leb_le.
  destruct hi as [z |]; cbn [le_bound]; [rewrite Z.leb_le |]; tauto.
Qed.

Lemma get_attribute (field : PropertyDetails -> option Z) (default : Z)
  (inspection : Inspection) :
  field no_details = None ->
  get (field (get (property_details inspection) no_details)) default
  = attribute field default inspection.
Proof.
  intros H. unfold attribute, get.
  destruct (property_details inspection); [reflexivity | now rewrite H].
Qed.

Lemma matches_criteria_spec (beds baths cars : Z * bound) (i : Inspection) :
  matches_criteria (fst beds) (snd beds) (fst baths) (snd baths)
    (fst cars) (snd cars) i = true
  <-> retained beds baths cars i.
Proof.
  unfold matches_criteria, retained.
  rewrite !get_attribute by reflexivity.
  destruct beds, baths, cars. cbn [fst snd].
  rewrite <- !within_spec, !andb_true_iff. tauto.
Qed.

End Filter.

(** ** The insertion-ordered dictionary *)

Section DictFacts.
Context {V : Type}.
Implicit Types (d : Dict.t V) (k : string).

Lemma mem_In k d : Dict.mem k d = true <-> In k (Dict.keys d).
Proof.
  induction d as [| [k' v] d IH]; simpl; [intuition discriminate |].
  destruct (String.eqb_spec k' k) as [-> | N]; [tauto |].
  rewrite IH. intuition congruence.
Qed.

Lemma mem_not_In k d : Dict.mem k d = false <-> ~ In k (Dict.keys d).
Proof.
  rewrite <- mem_In. destruct (Dict.mem k d); intuition congruence.
Qed.

Lemma set_fresh k (v : V) d :
  ~ In k (Dict.keys d) -> Dict.set k v d = (d ++ [(k, v)])%list.
Proof.
  induction d as [| [k' v'] d IH]; simpl; [reflexivity |].
  intros H. destruct (String.eqb_spec k' k) as [-> | N]; [tauto |].
  rewrite IH by tauto. reflexivity.
Qed.

Lemma update_absent k (f : V -> V) d :
  Dict.mem k d = false -> Dict.update k f d = d.
Proof.
  induction d as [| [k' v'] d IH]; simpl; [reflexivity |].
  destruct (String.eqb k' k); [discriminate |].
  intros H. now rewrite IH.
Qed.

Lemma keys_update k (f : V -> V) d :
  Dict.keys (Dict.update k f d) = Dict.keys d.
Proof.
  induction d as [| [k' v'] d IH]; simpl; [reflexivity |].
  destruct (String.eqb k' k); simpl; [reflexivity | now rewrite IH].
Qed.

(** Assigning fresh, pairwise distinct keys appends them in order. *)
Lemma set_all_fresh {P : Type} (key : P -> string) (val : P -> V)
  (ps : list P) d :
  NoDup (Dict.keys d ++ map key ps) ->
  fold_left (fun d p => Dict.set (key p) (val p) d) ps d
  = (d ++ map (fun p => (key p, val p)) ps)%list.
Proof.
  revert d. induction ps as [| p ps IH]; intros d H; simpl.
  - now rewrite app_nil_r.
  - simpl in H. pose proof (NoDup_remove_2 _ _ _ H) as Hp.
    rewrite set_fresh by (intros I; apply Hp, in_or_app; now left).
    rewrite IH.
    + now rewrite <- app_assoc.
    + unfold Dict.keys in *. rewrite map_app, <- app_assoc. exact H.
Qed.

End DictFacts.

(** ** The buckets of a window *)

Section Window.

Lemma In_range (lo hi x : Z) : In x (range lo hi) <-> lo <= x < hi.
Proof.
  unfold range. rewrite in_map_iff. split.
  - intros (i & <- & H). apply in_seq in H. lia.
  - intros H. exists (Z.to_nat (x - lo)). split; [lia |].
    apply in_seq. lia.
Qed.

Lemma range_empty (lo hi : Z) : hi <= lo -> range lo hi = [].
Proof.
  intros H. unfold range. now replace (Z.to_nat (hi - lo)) with 0%nat by lia.
Qed.

Lemma In_window_times (s e h m : Z) :
  In (h, m) (window_times s e)
  <-> s <= h <= e /\ (m = 0 \/ (m = 30 /\ h <> e)).
Proof.
  unfold window_times, hour_slots. rewrite in_flat_map. split.
  - intros (x & Hx & H). apply In_range in Hx.
    destruct (Z.eqb_spec x e); simpl in H; intuition (try congruence);
      match goal with E : (_, _) = (_, _) |- _ => inversion E; subst end; lia.
  - intros (Hh & Hm). exists h. split; [apply In_range; lia |].
    destruct (Z.eqb_spec h e); simpl; intuition (subst; auto).
Qed.

Lemma flat_map_ext_in {A B : Type} (f g : A -> list B) (l : list A) :
  (forall x, In x l -> f x = g x) -> flat_map f l = flat_map g l.
Proof.
  induction l as [| x l IH]; intros H; simpl; [reflexivity |].
  rewrite (H x) by now left.
  rewrite IH by (intros y Hy; apply H; now right). reflexivity.
Qed.

Lemma fold_left_ext {A B : Type} (f g : A -> B -> A) (l : list B) (a : A) :
  (forall a x, f a x = g a x) -> fold_left f l a = fold_left g l a.
Proof.
  intros H. revert a. induction l as [| x l IH]; intros a; simpl;
    [reflexivity |].
  now rewrite H, IH.
Qed.

Lemma div2_double (k : nat) :
  ((2 * k) / 2 = k /\ (2 * k) mod 2 = 0 /\
   (2 * k + 1) / 2 = k /\ (2 * k + 1) mod 2 = 1)%nat.
Proof.
  pose proof (Nat.div_mod_eq (2 * k) 2).
  pose proof (Nat.mod_upper_bound (2 * k) 2).
  pose proof (Nat.div_mod_eq (2 * k + 1) 2).
  pose proof (Nat.mod_upper_bound (2 * k + 1) 2).
  lia.
Qed.

Lemma full_hours_closed (s : Z) (k : nat) :
  flat_map (fun h => [(h, 0); (h, 30)])
    (map (fun i => s + Z.of_nat i) (seq 0 k))
  = map (window_slot s) (seq 0 (2 * k)).
Proof.
  induction k as [| k IH]; [reflexivity |].
  replace (2 * S k)%nat with (S (S (2 * k))) by lia.
  rewrite !seq_S, !map_app, flat_map_app, IH, <- app_assoc. simpl.
  destruct (div2_double k) as (E1 & E2 & E3 & E4).
  replace (S (k + (k + 0))) with (2 * k + 1)%nat by lia.
  replace (k + (k + 0))%nat with (2 * k)%nat by lia.
  unfold window_slot. rewrite E1, E2, E3, E4. reflexivity.
Qed.

(** The window in closed form: its [i]-th bucket is [i] half-hours after
    [s]:00. *)
Lemma window_times_closed (s e : Z) :
  s <= e ->
  window_times s e
  = map (window_slot s) (seq 0 (Z.to_nat (2 * (e - s) + 1))).
Proof.
  intros H. unfold window_times, range.
  set (k := Z.to_nat (e - s)).
  replace (Z.to_nat (e + 1 - s)) with (S k) by lia.
  replace (Z.to_nat (2 * (e - s) + 1)) with (S (2 * k)) by lia.
  rewrite !seq_S, !map_app, flat_map_app. simpl.
  rewrite app_nil_r.
  replace (k + (k + 0))%nat with (2 * k)%nat by lia.
  rewrite <- full_hours_closed. f_equal.
  - apply flat_map_ext_in. intros h Hh. apply in_map_iff in Hh as (i & <- & Hi).
    apply in_seq in Hi. unfold hour_slots.
    destruct (Z.eqb_spec (s + Z.of_nat i) e); [lia | reflexivity].
  - unfold hour_slots, window_slot.
    destruct (div2_double k) as (E1 & E2 & _). rewrite E1, E2.
    replace (s + Z.of_nat k) with e by lia. now rewrite Z.eqb_refl.
Qed.

Lemma window_times_empty (s e : Z) : e < s -> window_times s e = [].
Proof.
  intros H. unfold window_times. rewrite range_empty by lia. reflexivity.
Qed.

Lemma window_slot_inj (s : Z) (i j : nat) :
  window_slot s i = window_slot s j -> i = j.
Proof.
  unfold window_slot. intros E.
  assert (E1 : s + Z.of_nat (i / 2) = s + Z.of_nat (j / 2))
    by exact (f_equal fst E).
  assert (E2 : 30 * Z.of_nat (i mod 2) = 30 * Z.of_nat (j mod 2))
    by exact (f_equal snd E).
  pose proof (Nat.div_mod_eq i 2). pose proof (Nat.div_mod_eq j 2). lia.
Qed.

Lemma NoDup_window_times (s e : Z) : NoDup (window_times s e).
Proof.
  destruct (Z_lt_le_dec e s) as [H | H].
  - rewrite window_times_empty by assumption. constructor.
  - rewrite window_times_closed by assumption.
    apply Injective_map_NoDup; [| apply seq_NoDup].
    intros i j. apply window_slot_inj.
Qed.

Lemma pair_key_inj (p q : Z * Z) : pair_key p = pair_key q -> p = q.
Proof.
  destruct p, q. unfold pair_key. cbn [fst snd]. intros E.
  apply time_key_inj in E as [-> ->]. reflexivity.
Qed.

Lemma NoDup_window_keys (s e : Z) : NoDup (map pair_key (window_times s e)).
Proof.
  apply Injective_map_NoDup; [| apply NoDup_window_times].
  intros p q. apply pair_key_inj.
Qed.

Lemma fold_left_flat_map {A B C : Type} (f : B -> list C) (g : A -> C -> A)
  (l : list B) (a : A) :
  fold_left (fun a x => fold_left g (f x) a) l a
  = fold_left g (flat_map f l) a.
Proof.
  revert a. induction l as [| x l IH]; intros a; simpl; [reflexivity |].
  now rewrite fold_left_app, IH.
Qed.

Lemma init_minutes_hour (hour end_hour : Z) (d : Dict.t Slot) :
  init_minutes hour end_hour [0; 30] d
  = fold_left (fun d p => Dict.set (pair_key p) (new_slot (pair_key p)) d)
      (hour_slots end_hour hour) d.
Proof.
  unfold hour_slots. cbn [init_minutes].
  change (0 >? 0) with false. change (30 >? 0) with true.
  rewrite andb_false_r, andb_true_r.
  destruct (hour =? end_hour); reflexivity.
Qed.

(** The initialisation loops build one fresh bucket per boundary of the
    window, in order. *)
Lemma init_time_slots_eq (s e : Z) :
  init_time_slots s e = slots_of (fun _ => []) (window_times s e).
Proof.
  unfold init_time_slots.
  rewrite (fold_left_ext _ _ _ _ (fun d h => init_minutes_hour h e d)).
  unfold window_times at 1.
  rewrite (fold_left_flat_map (hour_slots e)
             (fun d p => Dict.set (pair_key p) (new_slot (pair_key p)) d)).
  rewrite set_all_fresh by apply NoDup_window_keys. reflexivity.
Qed.

End Window.

(** ** The assignment pass *)

Section Assignment.

Lemma slots_of_ext (f g : Z * Z -> list Inspection) (times : list (Z * Z)) :
  (forall p, In p times -> f p = g p) -> slots_of f times = slots_of g times.
Proof.
  intros H. unfold slots_of. apply map_ext_in. intros p Hp.
  now rewrite (H p Hp).
Qed.

Lemma in_slot_eq (i : Inspection) (p q : Z * Z) :
  rounded_slot i = Some q ->
  in_slot p i = String.eqb (pair_key p) (pair_key q).
Proof.
  intros H. unfold in_slot, pair_key. rewrite H, time_key_eqb.
  destruct p as [h m], q as [h' m']. cbn [fst snd].
  now rewrite (Z.eqb_sym h' h), (Z.eqb_sym m' m).
Qed.

Lemma in_slot_true (i : Inspection) (p : Z * Z) :
  in_slot p i = true <-> rounded_slot i = Some p.
Proof.
  unfold in_slot. destruct (rounded_slot i) as [[h m] |];
    [| intuition discriminate].
  destruct p as [h' m']. cbn [fst snd].
  rewrite andb_true_iff, !Z.eqb_eq. intuition congruence.
Qed.

(** Adding a record to the bucket of its rounded start time, when the
    window has that bucket, and to no other. *)
Lemma update_slots_of (i : Inspection) (q : Z * Z)
  (members : Z * Z -> list Inspection) (times : list (Z * Z)) :
  NoDup times ->
  rounded_slot i = Some q ->
  Dict.update (pair_key q) (add_inspection i) (slots_of members times)
  = slots_of (fun p => (members p ++ filter (in_slot p) [i])%list) times.
Proof.
  intros ND Hq. induction times as [| p times IH]; [reflexivity |].
  inversion ND as [| ? ? Hp ND']; subst.
  cbn [slots_of map Dict.update]. fold (slots_of members times).
  fold (slots_of (fun p => (members p ++ filter (in_slot p) [i])%list) times).
  cbn [filter]. rewrite (in_slot_eq i p q Hq).
  destruct (String.eqb_spec (pair_key p) (pair_key q)) as [E | N].
  - apply pair_key_inj in E. subst q. f_equal.
    + unfold add_inspection. cbn [time count competition properties].
      f_equal. f_equal. rewrite length_app. cbn [List.length]. lia.
    + apply slots_of_ext. intros p' Hp'.
      destruct (in_slot p' i) eqn:S; [| now rewrite app_nil_r].
      apply in_slot_true in S. congruence.
  - rewrite app_nil_r. f_equal. apply IH. assumption.
Qed.

Lemma rounded_slot_parse (i : Inspection) (hour minute : Z) :
  parse_start_time (start_time i) = Ok (hour, minute) ->
  rounded_slot i = Some (hour, if minute <? 30 then 0 else 30).
Proof. intros H. unfold rounded_slot. now rewrite H. Qed.

Lemma count_inspection_slots_of (i : Inspection) (hour minute : Z)
  (members : Z * Z -> list Inspection) (times : list (Z * Z)) :
  NoDup times ->
  parse_start_time (start_time i) = Ok (hour, minute) ->
  count_inspection (slots_of members times) i
  = Ok (slots_of (fun p => (members p ++ filter (in_slot p) [i])%list) times).
Proof.
  intros ND H. unfold count_inspection. rewrite H. cbn [bind].
  pose proof (update_slots_of i _ members times ND (rounded_slot_parse i _ _ H))
    as U.
  unfold pair_key in U at 1. cbn [fst snd] in U.
  destruct (Dict.mem _ _) eqn:M.
  - now rewrite U.
  - rewrite (update_absent _ (add_inspection i) _ M) in U. now rewrite U.
Qed.

Lemma count_inspections_slots_of (inspections : list Inspection)
  (times : list (Z * Z)) :
  NoDup times ->
  Forall (fun i => exists hour minute,
            parse_start_time (start_time i) = Ok (hour, minute)) inspections ->
  forall members,
    count_inspections inspections (slots_of members times)
    = Ok (slots_of
            (fun p => (members p ++ filter (in_slot p) inspections)%list)
            times).
Proof.
  intros ND. induction 1 as [| i inspections (hour & minute & Hi) _ IH];
    intros members; cbn [count_inspections].
  - f_equal. apply slots_of_ext. intros p _. now rewrite app_nil_r.
  - rewrite (count_inspection_slots_of i hour minute) by assumption.
    cbn [bind]. rewrite IH. f_equal. apply slots_of_ext. intros p _.
    rewrite <- app_assoc. f_equal.
    change (i :: inspections) with ([i] ++ inspections)%list.
    now rewrite filter_app.
Qed.

Lemma count_inspections_parsed (inspections : list Inspection) :
  forall d d',
    count_inspections inspections d = Ok d' ->
    Forall (fun i => exists hour minute,
              parse_start_time (start_time i) = Ok (hour, minute)) inspections.
Proof.
  induction inspections as [| i inspections IH]; intros d d' H; [constructor |].
  cbn [count_inspections] in H.
  destruct (count_inspection d i) as [d1 |] eqn:E; [| discriminate].
  cbn [bind] in H. constructor; [| eapply IH; eassumption].
  unfold count_inspection in E.
  destruct (parse_start_time (start_time i)) as [[hour minute] |];
    [eauto | discriminate].
Qed.

Lemma parse_start_time_parseable (s : string) (hour minute : Z) :
  parse_start_time s = Ok (hour, minute) <->
  exists a b, PyStr.split ":" s = [a; b] /\
              PyStr.int a = Ok hour /\ PyStr.int b = Ok minute.
Proof.
  unfold parse_start_time. split.
  - destruct (PyStr.split ":" s) as [| a [| b [| c l]]]; cbn [unpack2_map_int];
      try discriminate.
    + destruct (PyStr.int a); cbn [bind]; discriminate.
    + destruct (PyStr.int a) as [x |] eqn:Ha; cbn [bind]; [| discriminate].
      destruct (PyStr.int b) as [y |] eqn:Hb; cbn [bind]; [| discriminate].
      intros [= <- <-]. exists a, b. auto.
    + destruct (PyStr.int a) as [x |]; cbn [bind]; [| discriminate].
      destruct (PyStr.int b) as [y |]; cbn [bind]; [| discriminate].
      destruct (PyStr.int c); cbn [bind]; discriminate.
  - intros (a & b & -> & Ha & Hb). cbn [unpack2_map_int].
    now rewrite Ha, Hb.
Qed.

Lemma parsed_parseable (s : string) :
  (exists hour minute, parse_start_time s = Ok (hour, minute)) <-> parseable s.
Proof.
  unfold parseable. split.
  - intros (h & m & H). apply parse_start_time_parseable in H
      as (a & b & ? & ? & ?). exists a, b, h, m. auto.
  - intros (a & b & h & m & ? & ? & ?). exists h, m.
    apply parse_start_time_parseable. eauto.
Qed.

(** The whole aggregation on records that all parse: one classified bucket
    per boundary of the window, holding the records that round to it. *)
Lemma analyze_competition_eq (inspections : list Inspection)
  (tf : TimeFilter) (s e : Z) :
  window_hour (get (filter_start tf) "09:00") = Ok s ->
  window_hour (get (filter_end tf) "16:00") = Ok e ->
  Forall (fun i => parseable (start_time i)) inspections ->
  analyze_competition inspections tf
  = Ok (map (bucket_of inspections) (window_times s e)).
Proof.
  intros Hs He Hp. unfold analyze_competition. rewrite Hs, He. cbn [bind].
  rewrite init_time_slots_eq, count_inspections_slots_of.
  - cbn [bind]. f_equal. unfold Dict.values, slots_of.
    rewrite !map_map. apply map_ext. intros p. reflexivity.
  - apply NoDup_window_times.
  - eapply Forall_impl; [| exact Hp]. intros i. apply parsed_parseable.
Qed.

Lemma analyze_competition_inv (inspections : list Inspection)
  (tf : TimeFilter) (slots : list Slot) :
  analyze_competition inspections tf = Ok slots ->
  exists s e,
    window_hour (get (filter_start tf) "09:00") = Ok s /\
    window_hour (get (filter_end tf) "16:00") = Ok e /\
    Forall (fun i => parseable (start_time i)) inspections /\
    slots = map (bucket_of inspections) (window_times s e).
Proof.
  intros H. pose proof H as H0. unfold analyze_competition in H.
  destruct (window_hour (get (filter_start tf) "09:00")) as [s |] eqn:Hs;
    [| discriminate].
  destruct (window_hour (get (filter_end tf) "16:00")) as [e |] eqn:He;
    [| discriminate].
  cbn [bind] in H.
  destruct (count_inspections inspections (init_time_slots s e)) as [d |] eqn:C;
    [| discriminate].
  assert (P : Forall (fun i => parseable (start_time i)) inspections).
  { eapply Forall_impl; [| eapply count_inspections_parsed; exact C].
    intros i. apply parsed_parseable. }
  exists s, e. repeat split; try assumption.
  rewrite (analyze_competition_eq inspections tf s e Hs He P) in H0.
  congruence.
Qed.

End Assignment.

(** C2: when the three criteria parse, the filter returns exactly the
    inspections whose bedrooms, bathrooms and car spots (3, 2 and 1 standing
    for an absent attribute) lie within the parsed ranges, both ends
    included and the upper end possibly infinite; the output is the input
    with the other records left out, in the same order. *)
Theorem filter_similar_properties_retains (inspections : list Inspection)
  (c : Criteria) (beds baths cars : Z * bound) :
  parse_criteria_value (similar_bedrooms c) = Ok beds ->
  parse_criteria_value (similar_bathrooms c) = Ok baths ->
  parse_criteria_value (similar_car_spots c) = Ok cars ->
  exists (keep : Inspection -> bool) (out : list Inspection),
    filter_similar_properties inspections c = Ok out /\
    (forall i, keep i = true <-> retained beds baths cars i) /\
    out = filter keep inspections /\
    Subseq out inspections /\
    (forall i, In i out <-> In i inspections /\ retained beds baths cars i).
Proof.
  intros Hb Ht Hc.
  exists (matches_criteria (fst beds) (snd beds) (fst baths) (snd baths)
            (fst cars) (snd cars)).
  eexists.
  split; [now apply (filter_similar_properties_eq inspections c beds baths cars) |].
  split; [intros i; apply matches_criteria_spec |].
  split; [reflexivity |]. split; [apply Subseq_filter |].
  intros i. rewrite filter_In, matches_criteria_spec. reflexivity.
Qed.

Lemma filter_similar_properties_retains_witness :
  exists (keep : Inspection -> bool) (out : list Inspection),
    filter_similar_properties morning_inspections default_criteria = Ok out /\
    (forall i, keep i = true <-> retained (3, Int 4) (2, Inf) (1, Int 2) i) /\
    out = filter keep morning_inspections /\
    Subseq out morning_inspections /\
    (forall i, In i out <->
               In i morning_inspections /\
               retained (3, Int 4) (2, Inf) (1, Int 2) i).
Proof.
  apply (filter_similar_properties_retains morning_inspections
           default_criteria (3, Int 4) (2, Inf) (1, Int 2)); reflexivity.
Defined.

Lemma filter_idem {A : Type} (keep : A -> bool) (l : list A) :
  filter keep (filter keep l) = filter keep l.
Proof.
  induction l as [| x l IH]; simpl; [reflexivity |].
  destruct (keep x) eqn:K; simpl; [rewrite K |]; now rewrite IH.
Qed.

(** C9: with criteria that parse, filtering the output of the filter again
    returns it unchanged, and filtering the empty list gives the empty
    list. *)
Theorem filter_similar_properties_idempotent (c : Criteria)
  (beds baths cars : Z * bound) :
  parse_criteria_value (similar_bedrooms c) = Ok beds ->
  parse_criteria_value (similar_bathrooms c) = Ok baths ->
  parse_criteria_value (similar_car_spots c) = Ok cars ->
  filter_similar_properties [] c = Ok [] /\
  forall inspections, exists out,
    filter_similar_properties inspections c = Ok out /\
    filter_similar_properties out c = Ok out.
Proof.
  intros Hb Ht Hc. split.
  - now rewrite (filter_similar_properties_eq [] c beds baths cars).
  - intros inspections. eexists. split.
    + now apply (filter_similar_properties_eq inspections c beds baths cars).
    + rewrite (filter_similar_properties_eq _ c beds baths cars) by assumption.
      now rewrite filter_idem.
Qed.

Lemma filter_similar_properties_idempotent_witness :
  filter_similar_properties [] default_criteria = Ok [] /\
  forall inspections, exists out,
    filter_similar_properties inspections default_criteria = Ok out /\
    filter_similar_properties out default_criteria = Ok out.
Proof.
  apply (filter_similar_properties_idempotent default_criteria
           (3, Int 4) (2, Inf) (1, Int 2)); reflexivity.
Defined.

(** ** Bucket initialisation *)

Section Initialisation.

Lemma values_init_time_slots (s e : Z) :
  Dict.values (init_time_slots s e)
  = map (fun p => new_slot (pair_key p)) (window_times s e).
Proof.
  rewrite init_time_slots_eq. unfold Dict.values, slots_of.
  rewrite map_map. reflexivity.
Qed.

Lemma length_window_times (s e : Z) :
  s <= e -> Z.of_nat (List.length (window_times s e)) = 2 * (e - s) + 1.
Proof.
  intros H. rewrite window_times_closed by assumption.
  rewrite length_map, length_seq. lia.
Qed.

Lemma nth_window_times (s e : Z) (i : nat) :
  (i < List.length (window_times s e))%nat ->
  nth_error (window_times s e) i = Some (window_slot s i).
Proof.
  intros Hi. destruct (Z_lt_le_dec e s) as [H | H];
    [rewrite window_times_empty in Hi by assumption; simpl in Hi; lia |].
  pose proof (length_window_times s e H) as L.
  rewrite window_times_closed by assumption.
  rewrite nth_error_map.
  rewrite (nth_error_nth' _ 0%nat) by (rewrite length_seq; lia).
  rewrite seq_nth by lia. reflexivity.
Qed.

Lemma window_slot_time (s : Z) (i : nat) :
  (snd (window_slot s i) = 0 \/ snd (window_slot s i) = 30) /\
  60 * fst (window_slot s i) + snd (window_slot s i)
  = 60 * s + 30 * Z.of_nat i.
Proof.
  unfold window_slot. cbn [fst snd].
  pose proof (Nat.div_mod_eq i 2). pose proof (Nat.mod_upper_bound i 2).
  lia.
Qed.

Lemma analyze_competition_nil (tf : TimeFilter) (s e : Z) :
  window_hour (get (filter_start tf) "09:00") = Ok s ->
  window_hour (get (filter_end tf) "16:00") = Ok e ->
  analyze_competition [] tf = Ok (Dict.values (init_time_slots s e)).
Proof.
  intros Hs He. rewrite (analyze_competition_eq [] tf s e Hs He) by constructor.
  now rewrite values_init_time_slots.
Qed.

End Initialisation.

(** C3: the initialisation builds exactly 2*(end_hour-start_hour)+1
    buckets for a window with [start_hour <= end_hour] (and none for an
    empty window); the i-th one is stored under, and bears as its time,
    the key of the boundary i half-hours after start_hour:00, so they come
    in ascending chronological order from start_hour:00 to end_hour:00,
    and no bucket is keyed end_hour:30; each has count 0, no members and
    level "low".  The aggregation returns these buckets, in this order,
    with the records counted in; with no record it returns them as they
    are. *)
Theorem init_time_slots_buckets (s e : Z) :
  let slots := Dict.values (init_time_slots s e) in
  List.length slots = Z.to_nat (2 * (e - s) + 1) /\
  Dict.keys (init_time_slots s e) = map time slots /\
  map time slots = map pair_key (window_times s e) /\
  (s <= e ->
   Z.of_nat (List.length slots) = 2 * (e - s) + 1 /\
   nth_error slots 0
   = Some {| time := time_key s 0; count := 0; competition := "low";
             properties := [] |} /\
   nth_error slots (List.length slots - 1)
   = Some {| time := time_key e 0; count := 0; competition := "low";
             properties := [] |}) /\
  (forall i, (i < List.length slots)%nat ->
     exists hour minute,
       nth_error (init_time_slots s e) i
       = Some (time_key hour minute,
               {| time := time_key hour minute; count := 0;
                  competition := "low"; properties := [] |}) /\
       nth_error slots i
       = Some {| time := time_key hour minute; count := 0;
                 competition := "low"; properties := [] |} /\
       hour = s + Z.of_nat (i / 2) /\
       minute = 30 * Z.of_nat (i mod 2) /\
       (minute = 0 \/ minute = 30) /\
       60 * hour + minute = 60 * s + 30 * Z.of_nat i) /\
  ~ In (time_key e 30) (map time slots) /\
  Forall (fun b => count b = 0 /\ properties b = [] /\ competition b = "low")
    slots /\
  (forall tf inspections result,
     window_hour (get (filter_start tf) "09:00") = Ok s ->
     window_hour (get (filter_end tf) "16:00") = Ok e ->
     analyze_competition inspections tf = Ok result ->
     map time result = map time slots /\
     (inspections = [] -> result = slots)).
Proof.
  intros slots. subst slots. rewrite values_init_time_slots.
  rewrite length_map.
  assert (L : List.length (window_times s e) = Z.to_nat (2 * (e - s) + 1)).
  { destruct (Z_lt_le_dec e s) as [H | H].
    - rewrite window_times_empty by assumption. cbn [List.length]. lia.
    - pose proof (length_window_times s e H). lia. }
  assert (N : forall i, (i < List.length (window_times s e))%nat ->
            nth_error (map (fun p => new_slot (pair_key p)) (window_times s e)) i
            = Some (new_slot (pair_key (window_slot s i)))).
  { intros i Hi. rewrite nth_error_map, nth_window_times by lia.
    reflexivity. }
  assert (T : map time (map (fun p => new_slot (pair_key p)) (window_times s e))
              = map pair_key (window_times s e)).
  { rewrite map_map. reflexivity. }
  split; [exact L |].
  split; [rewrite T, init_time_slots_eq; unfold Dict.keys, slots_of;
          now rewrite map_map |].
  split; [exact T |].
  split; [| split; [| split; [| split]]].
  - intros H. split; [lia |]. split.
    + rewrite N by lia.
      replace (window_slot s 0) with (s, 0)
        by (unfold window_slot; simpl; f_equal; lia).
      reflexivity.
    + rewrite N by lia. change (time_key e 0) with (pair_key (e, 0)).
      replace (window_slot s (List.length (window_times s e) - 1))
        with (e, 0); [reflexivity |].
      unfold window_slot.
      replace (List.length (window_times s e) - 1)%nat
        with (2 * Z.to_nat (e - s))%nat by lia.
      destruct (div2_double (Z.to_nat (e - s))) as (E1 & E2 & _).
      rewrite E1, E2. f_equal; lia.
  - intros i Hi. exists (fst (window_slot s i)), (snd (window_slot s i)).
    split; [| split; [now apply N |]].
    + rewrite init_time_slots_eq. unfold slots_of.
      rewrite nth_error_map, nth_window_times by lia. reflexivity.
    + split; [reflexivity |]. split; [reflexivity |].
      apply window_slot_time.
  - rewrite T. intros I.
    apply in_map_iff in I as (p & E & I).
    change (time_key e 30) with (pair_key (e, 30)) in E.
    apply pair_key_inj in E. subst p.
    apply In_window_times in I. lia.
  - apply Forall_forall. intros b I.
    apply in_map_iff in I as (p & <- & _). repeat split.
  - intros tf inspections result Hs He R. split.
    + apply analyze_competition_inv in R as (s' & e' & Hs' & He' & _ & ->).
      assert (s' = s) by congruence. assert (e' = e) by congruence. subst.
      rewrite !map_map. reflexivity.
    + intros ->. rewrite (analyze_competition_nil tf s e Hs He) in R.
      rewrite values_init_time_slots in R. congruence.
Qed.

Lemma init_time_slots_buckets_witness :
  let slots := Dict.values (init_time_slots 9 11) in
  map time slots = ["09:00"; "09:30"; "10:00"; "10:30"; "11:00"] /\
  Dict.keys (init_time_slots 9 11) = map time slots /\
  (Z.of_nat (List.length slots) = 2 * (11 - 9) + 1 /\
   nth_error slots 0
   = Some {| time := time_key 9 0; count := 0; competition := "low";
             properties := [] |} /\
   nth_error slots (List.length slots - 1)
   = Some {| time := time_key 11 0; count := 0; competition := "low";
             properties := [] |})
  /\
  (forall result,
     analyze_competition morning_inspections morning_window = Ok result ->
     map time result = map time slots /\
     (morning_inspections = [] -> result = slots)).
Proof.
  destruct (init_time_slots_buckets 9 11) as (_ & K & T & H & _ & _ & _ & R).
  split; [rewrite T; vm_compute; reflexivity |].
  split; [exact K |]. split.
  - apply H. lia.
  - intros result. apply (R morning_window morning_inspections result);
      reflexivity.
Defined.

(** ** Counting *)

Section Counting.

Lemma zsum_add {A : Type} (f g : A -> Z) (l : list A) :
  fold_right Z.add 0 (map (fun x => f x + g x) l)
  = fold_right Z.add 0 (map f l) + fold_right Z.add 0 (map g l).
Proof. induction l as [| x l IH]; simpl; lia. Qed.

Lemma zsum_zero {A : Type} (l : list A) :
  fold_right Z.add 0 (map (fun _ => 0) l) = 0.
Proof. induction l as [| x l IH]; simpl; lia. Qed.

(** A record falls in at most one bucket. *)
Lemma zsum_in_slot (i : Inspection) (times : list (Z * Z)) :
  NoDup times ->
  fold_right Z.add 0 (map (fun p => if in_slot p i then 1 else 0) times)
  = if existsb (fun p => in_slot p i) times then 1 else 0.
Proof.
  induction 1 as [| p times Hp ND IH]; [reflexivity |].
  cbn [map fold_right existsb]. rewrite IH.
  destruct (in_slot p i) eqn:S; [| reflexivity]. cbn [orb].
  destruct (existsb (fun q => in_slot q i) times) eqn:E; [| reflexivity].
  apply existsb_exists in E as (q & Hq & S').
  apply in_slot_true in S, S'. congruence.
Qed.

Lemma sum_counts_buckets (inspections : list Inspection)
  (times : list (Z * Z)) :
  NoDup times ->
  sum_counts (map (bucket_of inspections) times)
  = Z.of_nat (List.length
                (filter (fun i => existsb (fun p => in_slot p i) times)
                   inspections)).
Proof.
  intros ND. unfold sum_counts. rewrite map_map. cbn [count bucket_of].
  induction inspections as [| i inspections IH].
  - cbn [filter List.length]. apply zsum_zero.
  - rewrite (map_ext _ (fun p => (if in_slot p i then 1 else 0)
                 + Z.of_nat (List.length (filter (in_slot p) inspections)))).
    + rewrite zsum_add, IH, zsum_in_slot by assumption. cbn [filter].
      destruct (existsb (fun p => in_slot p i) times);
        cbn [List.length]; lia.
    + intros p. cbn [filter]. destruct (in_slot p i); cbn [List.length]; lia.
Qed.

Lemma existsb_in_window (s e : Z) (i : Inspection) :
  existsb (fun p => in_slot p i) (window_times s e) = true
  <-> in_window s e i.
Proof.
  rewrite existsb_exists. unfold in_window. split.
  - intros ([h r] & I & S). apply in_slot_true in S.
    unfold rounded_slot in S.
    destruct (parse_start_time (start_time i)) as [[hour minute] |];
      [| discriminate].
    injection S as <- <-. apply In_window_times in I.
    exists hour, minute. split; [reflexivity |].
    destruct (Z.ltb_spec minute 30); lia.
  - intros (hour & minute & P & Hh & Hm).
    exists (hour, if minute <? 30 then 0 else 30). split.
    + apply In_window_times. destruct (Z.ltb_spec minute 30); lia.
    + apply in_slot_true. now apply rounded_slot_parse.
Qed.

Lemma filter_length_all {A : Type} (f : A -> bool) (l : list A) :
  List.length (filter f l) = List.length l <-> Forall (fun x => f x = true) l.
Proof.
  rewrite Forall_forall, <- forallb_forall. split.
  - apply filter_length_forallb.
  - intros H. now rewrite forallb_filter_id.
Qed.

End Counting.

Lemma in_slot_key (p : Z * Z) (j : Inspection) :
  in_slot p j
  = match parse_start_time (start_time j) with
    | Ok (h, m) =>
        String.eqb (time_key h (if m <? 30 then 0 else 30)) (pair_key p)
    | Raise _ => false
    end.
Proof.
  unfold in_slot, rounded_slot, pair_key.
  destruct (parse_start_time (start_time j)) as [[h m] |]; [| reflexivity].
  now rewrite time_key_eqb.
Qed.

(** C4: when the window and every start time parse, the aggregation returns
    normally, with buckets of distinct keys; the members of each bucket are
    exactly the input records whose start time hour:minute rounds down to
    the key of the bucket (minute 0 when minute < 30, 30 otherwise), each
    as often as it is in the input and in the input order, and the count
    is their number.  A bucket with the rounded key of a record exists
    exactly when the rounded time lies in the window, and then holds the
    record; otherwise the record is a member of no bucket. *)
Theorem analyze_competition_assignment (inspections : list Inspection)
  (tf : TimeFilter) (s e : Z) :
  window_hour (get (filter_start tf) "09:00") = Ok s ->
  window_hour (get (filter_end tf) "16:00") = Ok e ->
  Forall (fun i => parseable (start_time i)) inspections ->
  exists slots,
    analyze_competition inspections tf = Ok slots /\
    NoDup (map time slots) /\
    (forall slot, In slot slots ->
       properties slot
       = filter (fun j =>
                   match parse_start_time (start_time j) with
                   | Ok (h, m) =>
                       String.eqb (time_key h (if m <? 30 then 0 else 30))
                         (time slot)
                   | Raise _ => false
                   end) inspections /\
       count slot = Z.of_nat (List.length (properties slot))) /\
    forall i hour minute,
      In i inspections ->
      parse_start_time (start_time i) = Ok (hour, minute) ->
      let slot_key := time_key hour (if minute <? 30 then 0 else 30) in
      (s <= hour <= e /\ (hour = e -> minute < 30)
       <-> In slot_key (map time slots)) /\
      (In slot_key (map time slots) ->
       exists slot,
         In slot slots /\ time slot = slot_key /\ In i (properties slot)) /\
      (forall slot, In slot slots ->
                    (In i (properties slot) <-> time slot = slot_key)) /\
      (~ In slot_key (map time slots) ->
       forall slot, In slot slots -> ~ In i (properties slot)).
Proof.
  intros Hs He Hp. eexists.
  split; [exact (analyze_competition_eq inspections tf s e Hs He Hp) |].
  assert (T : map time (map (bucket_of inspections) (window_times s e))
              = map pair_key (window_times s e))
    by (rewrite map_map; reflexivity).
  split; [rewrite T; apply NoDup_window_keys |].
  split.
  { intros slot I. apply in_map_iff in I as (p & <- & _).
    cbn [properties time count bucket_of]. split; [| reflexivity].
    apply filter_ext. intros j. apply in_slot_key. }
  intros i hour minute Hi P slot_key.
  assert (M : forall slot,
            In slot (map (bucket_of inspections) (window_times s e)) ->
            (In i (properties slot) <-> time slot = slot_key)).
  { intros slot I. apply in_map_iff in I as (p & <- & _).
    cbn [properties time bucket_of]. rewrite filter_In, in_slot_true.
    rewrite (rounded_slot_parse i hour minute P). split.
    - intros [_ [= <-]]. reflexivity.
    - intros E. split; [assumption |].
      change slot_key with (pair_key (hour, if minute <? 30 then 0 else 30))
        in E.
      apply pair_key_inj in E. now subst p. }
  assert (K : In slot_key (map time
                             (map (bucket_of inspections) (window_times s e)))
              <-> In (hour, if minute <? 30 then 0 else 30) (window_times s e)).
  { rewrite T. split.
    - intros I. apply in_map_iff in I as (p & E & I).
      change slot_key with (pair_key (hour, if minute <? 30 then 0 else 30))
        in E.
      apply pair_key_inj in E. now subst p.
    - intros I. now apply (in_map pair_key) in I. }
  split; [| split; [| split; [exact M |]]].
  - rewrite K, In_window_times. destruct (Z.ltb_spec minute 30); lia.
  - intros I. apply K in I.
    exists (bucket_of inspections (hour, if minute <? 30 then 0 else 30)).
    split; [now apply in_map |]. split; [reflexivity |].
    cbn [properties bucket_of]. apply filter_In. split; [assumption |].
    apply in_slot_true. now apply rounded_slot_parse.
  - intros N slot I Hin. apply N. apply in_map_iff. exists slot.
    split; [| assumption]. now apply M.
Qed.

Lemma analyze_competition_assignment_witness :
  exists slots,
    analyze_competition morning_inspections morning_window = Ok slots /\
    NoDup (map time slots) /\
    (forall slot, In slot slots ->
       properties slot
       = filter (fun j =>
                   match parse_start_time (start_time j) with
                   | Ok (h, m) =>
                       String.eqb (time_key h (if m <? 30 then 0 else 30))
                         (time slot)
                   | Raise _ => false
                   end) morning_inspections /\
       count slot = Z.of_nat (List.length (properties slot))) /\
    forall i hour minute,
      In i morning_inspections ->
      parse_start_time (start_time i) = Ok (hour, minute) ->
      let slot_key := time_key hour (if minute <? 30 then 0 else 30) in
      (9 <= hour <= 11 /\ (hour = 11 -> minute < 30)
       <-> In slot_key (map time slots)) /\
      (In slot_key (map time slots) ->
       exists slot,
         In slot slots /\ time slot = slot_key /\ In i (properties slot)) /\
      (forall slot, In slot slots ->
                    (In i (properties slot) <-> time slot = slot_key)) /\
      (~ In slot_key (map time slots) ->
       forall slot, In slot slots -> ~ In i (properties slot)).
Proof.
  apply (analyze_competition_assignment morning_inspections morning_window
           9 11); [reflexivity | reflexivity |].
  repeat constructor;
    [exists "09", "05", 9, 5 | exists "09", "05", 9, 5
    | exists "09", "40", 9, 40 | exists "10", "05", 10, 5];
    repeat split.
Defined.

(** C5: every bucket the aggregation returns is classified by its final
    count: "low" up to 2, "medium" from 3 to 5, "high" from 6 to 10,
    "very-high" above 10; the four cases cover every count and exclude one
    another. *)
Theorem analyze_competition_levels (inspections : list Inspection)
  (tf : TimeFilter) (slots : list Slot) :
  analyze_competition inspections tf = Ok slots ->
  Forall (fun b =>
            0 <= count b /\
            (count b <= 2 -> competition b = "low") /\
            (3 <= count b <= 5 -> competition b = "medium") /\
            (6 <= count b <= 10 -> competition b = "high") /\
            (10 < count b -> competition b = "very-high")) slots.
Proof.
  intros H. apply analyze_competition_inv in H as (s & e & _ & _ & _ & ->).
  apply Forall_forall. intros b I. apply in_map_iff in I as (p & <- & _).
  cbn [count competition bucket_of]. unfold competition_level.
  set (n := Z.of_nat _). split; [lia |].
  destruct (Z.leb_spec n 2), (Z.leb_spec n 5), (Z.leb_spec n 10);
    repeat split; intros; solve [reflexivity | lia].
Qed.

Lemma analyze_competition_levels_witness :
  Forall (fun b =>
            0 <= count b /\
            (count b <= 2 -> competition b = "low") /\
            (3 <= count b <= 5 -> competition b = "medium") /\
            (6 <= count b <= 10 -> competition b = "high") /\
            (10 < count b -> competition b = "very-high"))
    (map (bucket_of morning_inspections) (window_times 9 11)).
Proof.
  apply (analyze_competition_levels morning_inspections morning_window).
  vm_compute. reflexivity.
Defined.

(** C7: the counts of the returned buckets sum to at most the number of
    input records, with equality exactly when the rounded start time of
    every record is a bucket of the window; and the count of each bucket is
    the length of its member list. *)
Theorem analyze_competition_counts (inspections : list Inspection)
  (tf : TimeFilter) (slots : list Slot) :
  analyze_competition inspections tf = Ok slots ->
  sum_counts slots <= Z.of_nat (List.length inspections) /\
  (forall s e,
     window_hour (get (filter_start tf) "09:00") = Ok s ->
     window_hour (get (filter_end tf) "16:00") = Ok e ->
     (sum_counts slots = Z.of_nat (List.length inspections)
      <-> Forall (in_window s e) inspections)) /\
  Forall (fun b => count b = Z.of_nat (List.length (properties b))) slots.
Proof.
  intros H. apply analyze_competition_inv in H as (s & e & Hs & He & _ & ->).
  rewrite sum_counts_buckets by apply NoDup_window_times.
  split; [| split].
  - apply inj_le, filter_length_le.
  - intros s' e' Hs' He'.
    assert (s' = s) by congruence. assert (e' = e) by congruence. subst.
    rewrite Nat2Z.inj_iff, filter_length_all.
    rewrite !Forall_forall. split; intros F i I; apply existsb_in_window, F, I.
  - apply Forall_forall. intros b I. apply in_map_iff in I as (p & <- & _).
    reflexivity.
Qed.

Lemma analyze_competition_counts_witness :
  let slots := map (bucket_of morning_inspections) (window_times 9 11) in
  sum_counts slots <= Z.of_nat (List.length morning_inspections) /\
  (forall s e,
     window_hour (get (filter_start morning_window) "09:00") = Ok s ->
     window_hour (get (filter_end morning_window) "16:00") = Ok e ->
     (sum_counts slots = Z.of_nat (List.length morning_inspections)
      <-> Forall (in_window s e) morning_inspections)) /\
  Forall (fun b => count b = Z.of_nat (List.length (properties b))) slots.
Proof.
  apply (analyze_competition_counts morning_inspections morning_window).
  vm_compute. reflexivity.
Defined.

(** C10: if the start time of some record is not two ':'-separated
    integers, the aggregation raises: it returns no bucket list, whatever
    the other records and the window are. *)
Theorem analyze_competition_aborts (inspections : list Inspection)
  (tf : TimeFilter) :
  Exists (fun i => ~ parseable (start_time i)) inspections ->
  raises (analyze_competition inspections tf) /\
  forall slots, analyze_competition inspections tf <> Ok slots.
Proof.
  intros E.
  assert (N : forall slots, analyze_competition inspections tf <> Ok slots).
  { intros slots H. apply analyze_competition_inv in H as (_ & _ & _ & _ & F & _).
    apply Exists_exists in E as (i & I & Hi). apply Hi.
    rewrite Forall_forall in F. now apply F. }
  split; [| exact N].
  destruct (analyze_competition inspections tf) as [slots | err] eqn:R.
  - now destruct (N slots).
  - now exists err.
Qed.

Lemma analyze_competition_aborts_witness :
  raises (analyze_competition
            [inspection_at "09:05" None; inspection_at "9am" None]
            default_window) /\
  forall slots,
    analyze_competition
      [inspection_at "09:05" None; inspection_at "9am" None] default_window
    <> Ok slots.
Proof.
  apply (analyze_competition_aborts
           [inspection_at "09:05" None; inspection_at "9am" None]
           default_window).
  apply Exists_cons_tl, Exists_cons_hd.
  intros (a & b & hour & minute & H & _). vm_compute in H. discriminate H.
Defined.

(** ** Ranking *)

Section Ranking.
Context {A : Type} (key : A -> Z).


Lemma insert_by_perm (x : A) (l : list A) :
  Permutation (insert_by key x l) (x :: l).
Proof.
  induction l as [| y l IH]; simpl; [reflexivity |].
  destruct (key x <=? key y); [reflexivity |].
  rewrite IH. apply perm_swap.
Qed.

Lemma sorted_perm (l : list A) : Permutation (sorted key l) l.
Proof.
  induction l as [| x l IH]; simpl; [constructor |].
  rewrite insert_by_perm. now constructor.
Qed.

Lemma insert_by_sorted (x : A) (l : list A) :
  StronglySorted (key_le key) l -> StronglySorted (key_le key) (insert_by key x l).
Proof.
  induction 1 as [| y l S IH F]; simpl; [repeat constructor |].
  destruct (Z.leb_spec (key x) (key y)) as [L | G].
  - constructor; [now constructor |].
    constructor; [exact L |].
    eapply Forall_impl; [| exact F]. unfold key_le. intros; lia.
  - constructor; [exact IH |].
    rewrite (insert_by_perm x l). constructor; [unfold key_le; lia | exact F].
Qed.

Lemma sorted_sorted (l : list A) : StronglySorted (key_le key) (sorted key l).
Proof.
  induction l as [| x l IH]; simpl; [constructor |].
  now apply insert_by_sorted.
Qed.

(** Insertion keeps the records of equal key in their order. *)
Lemma insert_by_stable (n : Z) (x : A) (l : list A) :
  filter (has_key key n) (insert_by key x l) = filter (has_key key n) (x :: l).
Proof.
  induction l as [| y l IH]; [reflexivity |].
  cbn [insert_by]. destruct (Z.leb_spec (key x) (key y)) as [L | G];
    [reflexivity |].
  cbn [filter] in *. rewrite IH. unfold has_key.
  destruct (Z.eqb_spec (key x) n), (Z.eqb_spec (key y) n);
    try reflexivity; lia.
Qed.

Lemma sorted_stable (n : Z) (l : list A) :
  filter (has_key key n) (sorted key l) = filter (has_key key n) l.
Proof.
  induction l as [| x l IH]; [reflexivity |].
  cbn [sorted fold_right]. fold (sorted key l).
  rewrite insert_by_stable. cbn [filter]. now rewrite IH.
Qed.

Lemma firstn_Forall (P : A -> Prop) (n : nat) (l : list A) :
  Forall P l -> Forall P (firstn n l).
Proof.
  intros F. revert n. induction F as [| y l Hy F IH]; intros [| n]; simpl;
    constructor; auto.
Qed.

Lemma firstn_sorted (n : nat) (l : list A) :
  StronglySorted (key_le key) l -> StronglySorted (key_le key) (firstn n l).
Proof.
  intros S. revert n. induction S as [| y l S IH F]; intros [| n]; simpl;
    try constructor.
  - apply IH.
  - now apply firstn_Forall.
Qed.

Lemma has_key_refl (x : A) : has_key key (key x) x = true.
Proof. apply Z.eqb_refl. Qed.

(** The stable sort is unique: a list sorted by key that keeps the
    records of each key in their order is determined. *)
Lemma stable_sort_unique (l1 l2 : list A) :
  StronglySorted (key_le key) l1 -> StronglySorted (key_le key) l2 ->
  (forall n, filter (has_key key n) l1 = filter (has_key key n) l2) ->
  l1 = l2.
Proof.
  intros S1. revert l2.
  induction S1 as [| x l1 S1 IH F1]; intros l2 S2 E.
  - destruct l2 as [| y l2]; [reflexivity |].
    specialize (E (key y)). cbn [filter] in E.
    rewrite has_key_refl in E. discriminate.
  - destruct S2 as [| y l2 S2 F2].
    + specialize (E (key x)). cbn [filter] in E.
      rewrite has_key_refl in E. discriminate.
    + assert (Lxy : key x <= key y).
      { pose proof (E (key y)) as Ey. cbn [filter] in Ey.
        rewrite (has_key_refl y) in Ey.
        assert (I : In y (filter (has_key key (key y)) (x :: l1)))
          by (cbn [filter]; rewrite Ey; now left).
        apply filter_In in I as [[-> | I] _]; [lia |].
        rewrite Forall_forall in F1. apply (F1 y I). }
      assert (Lyx : key y <= key x).
      { pose proof (E (key x)) as Ex. cbn [filter] in Ex.
        rewrite (has_key_refl x) in Ex.
        assert (I : In x (filter (has_key key (key x)) (y :: l2)))
          by (cbn [filter]; rewrite <- Ex; now left).
        apply filter_In in I as [[-> | I] _]; [lia |].
        rewrite Forall_forall in F2. apply (F2 x I). }
      assert (x = y).
      { pose proof (E (key x)) as Ex. cbn [filter] in Ex.
        rewrite (has_key_refl x) in Ex.
        replace (has_key key (key x) y) with true in Ex
          by (symmetry; apply Z.eqb_eq; lia).
        now injection Ex. }
      subst y. f_equal. apply IH; [assumption |].
      intros n. specialize (E n). cbn [filter] in E.
      destruct (has_key key n x); [now injection E | exact E].
Qed.

End Ranking.

(** C6: the recommendations are the first five buckets of the bucket list
    sorted by ascending count, buckets of equal count keeping their
    chronological order: their number is min(5, number of buckets) and
    their counts never decrease. *)
Theorem recommendations_ranked (slots : list Slot) :
  List.length (recommendations slots) = Nat.min 5 (List.length slots) /\
  StronglySorted (fun a b => count a <= count b) (recommendations slots) /\
  exists ranked,
    recommendations slots = firstn 5 ranked /\
    Permutation ranked slots /\
    StronglySorted (fun a b => count a <= count b) ranked /\
    (forall n, filter (fun b => count b =? n) ranked
               = filter (fun b => count b =? n) slots) /\
    (forall ranked',
       StronglySorted (fun a b => count a <= count b) ranked' ->
       (forall n, filter (fun b => count b =? n) ranked'
                  = filter (fun b => count b =? n) slots) ->
       ranked' = ranked).
Proof.
  unfold recommendations. split; [| split].
  - rewrite length_firstn. f_equal.
    apply Permutation_length, sorted_perm.
  - apply firstn_sorted, sorted_sorted.
  - exists (sorted count slots). split; [reflexivity |].
    split; [apply sorted_perm |]. split; [apply sorted_sorted |].
    split; [intros n; apply sorted_stable |].
    intros ranked' S E.
    apply (stable_sort_unique count); [exact S | apply sorted_sorted |].
    intros n. unfold has_key. rewrite E. symmetry.
    apply (sorted_stable count).
Qed.

Lemma recommendations_ranked_witness :
  List.length (recommendations (map (bucket_of morning_inspections)
                                  (window_times 9 11)))
  = Nat.min 5 (List.length (map (bucket_of morning_inspections)
                              (window_times 9 11))).
Proof.
  apply (recommendations_ranked
           (map (bucket_of morning_inspections) (window_times 9 11))).
Defined.

(** ** Further properties of the range parser *)

Section ParserMore.

Lemma split_no_sep (sep : ascii) (s : string) :
  Forall (fun field => PyStr.contains sep field = false) (PyStr.split sep s).
Proof.
  unfold PyStr.split. induction s as [| c s IH]; simpl.
  - repeat constructor.
  - destruct (PyStr.split_fields sep s) as [f fs].
    destruct (Ascii.eqb c sep) eqn:E.
    + constructor; [reflexivity | exact IH].
    + inversion IH; subst. constructor; [simpl; now rewrite E | assumption].
Qed.

Lemma contains_lstrip (c : ascii) (s : string) :
  PyStr.contains c (PyStr.lstrip s) = true -> PyStr.contains c s = true.
Proof.
  induction s as [| c' s IH]; simpl; [discriminate |].
  destruct (PyStr.is_space c'); [| exact (fun H => H)].
  intros H. rewrite (IH H). now destruct (Ascii.eqb c' c).
Qed.

Lemma digit_value_nonneg (c : ascii) (d : Z) :
  PyStr.digit_value c = Some d -> 0 <= d <= 9.
Proof.
  unfold PyStr.digit_value.
  destruct ((48 <=? N_of_ascii c)%N && (N_of_ascii c <=? 57)%N) eqn:E;
    [| discriminate].
  apply andb_true_iff in E as [E1 E2].
  apply N.leb_le in E1, E2. intros [= <-]. lia.
Qed.

Lemma scan_digits_nonneg (s : string) :
  forall acc prev_us v rest,
    0 <= acc -> PyStr.scan_digits s acc prev_us = Some (v, rest) -> 0 <= v.
Proof.
  induction s as [| c s IH]; intros acc b v rest Hacc; cbn [PyStr.scan_digits].
  - destruct b; [discriminate |]. now intros [= <- _].
  - destruct (PyStr.digit_value c) as [d |] eqn:D.
    + apply digit_value_nonneg in D. apply IH. lia.
    + destruct (Ascii.eqb c "_").
      * destruct b; [discriminate |]. now apply IH.
      * destruct b; [discriminate |]. now intros [= <- _].
Qed.

Lemma strip_sign_negative (t body : string) :
  PyStr.strip_sign t = (true, body) -> PyStr.contains "-" t = true.
Proof.
  destruct t as [| c t]; [discriminate |].
  destruct c as [[|] [|] [|] [|] [|] [|] [|] [|]];
    cbn [PyStr.strip_sign]; intros [= _]; try discriminate; reflexivity.
Qed.

(** A literal without '-' is never read as a negative number. *)
Lemma int_nonneg (s : string) (v : Z) :
  PyStr.contains "-" s = false -> PyStr.int s = Ok v -> 0 <= v.
Proof.
  intros Hd. unfold PyStr.int.
  destruct (PyStr.strip_sign (PyStr.lstrip s)) as [neg body] eqn:S.
  destruct neg.
  - apply strip_sign_negative, contains_lstrip in S. congruence.
  - destruct body as [| c body']; [discriminate |].
    destruct (PyStr.digit_value c); [| discriminate].
    destruct (PyStr.scan_digits (String c body') 0 false) as [[w rest] |] eqn:D;
      [| discriminate].
    destruct (PyStr.lstrip rest); [| discriminate].
    intros [= <-]. eapply scan_digits_nonneg; [| exact D]. lia.
Qed.

Lemma parse_criteria_value_cases (s : string) :
  parse_criteria_value s
  = if PyStr.contains "+" s then
      min_val <- PyStr.int (PyStr.remove_char "+" s) ;; Ok (min_val, Inf)
    else if PyStr.contains "-" s then
      match PyStr.split "-" s with
      | a :: b :: _ => lo <- PyStr.int a ;; hi <- PyStr.int b ;; Ok (lo, Int hi)
      | _ => Raise IndexError
      end
    else val <- PyStr.int s ;; Ok (val, Int val).
Proof.
  unfold parse_criteria_value.
  destruct (PyStr.contains "+" s); [reflexivity |].
  destruct (PyStr.contains "-" s) eqn:D; [| reflexivity].
  destruct (split_present "-" s D) as (a & b & fs & ->). reflexivity.
Qed.

Lemma parse_criteria_value_total (s : string) :
  parse_criteria_value s = Raise ValueError \/
  exists parsed, parse_criteria_value s = Ok parsed.
Proof.
  rewrite parse_criteria_value_cases.
  destruct (PyStr.contains "+" s).
  - destruct (int_total (PyStr.remove_char "+" s)) as [-> | [v ->]];
      cbn [bind]; eauto.
  - destruct (PyStr.contains "-" s) eqn:D.
    + destruct (split_present "-" s D) as (a & b & fs & ->).
      destruct (int_total a) as [-> | [v ->]]; cbn [bind]; [now left |].
      destruct (int_total b) as [-> | [w ->]]; cbn [bind]; eauto.
    + destruct (int_total s) as [-> | [v ->]]; cbn [bind]; eauto.
Qed.

End ParserMore.

(** X1: the parser raises nothing but ValueError: in the '-' form the
    second part it indexes always exists. *)
Theorem parse_criteria_value_raises_value_error (s : string) (e : exn) :
  parse_criteria_value s = Raise e -> e = ValueError.
Proof.
  rewrite parse_criteria_value_cases.
  destruct (PyStr.contains "+" s).
  - destruct (PyStr.int _) eqn:E; cbn [bind]; [discriminate |].
    intros [= <-]. eapply int_raises_value_error, E.
  - destruct (PyStr.contains "-" s) eqn:D.
    + destruct (split_present "-" s D) as (a & b & fs & ->).
      destruct (PyStr.int a) eqn:Ea; cbn [bind].
      * destruct (PyStr.int b) eqn:Eb; cbn [bind]; [discriminate |].
        intros [= <-]. eapply int_raises_value_error, Eb.
      * intros [= <-]. eapply int_raises_value_error, Ea.
    + destruct (PyStr.int s) eqn:E; cbn [bind]; [discriminate |].
      intros [= <-]. eapply int_raises_value_error, E.
Qed.

Lemma parse_criteria_value_raises_value_error_witness :
  ValueError = ValueError.
Proof.
  symmetry.
  apply (parse_criteria_value_raises_value_error "3-x" ValueError).
  reflexivity.
Defined.

(** X2: the upper bound the parser returns is infinite exactly when the
    spec holds a '+'; with neither '+' nor '-' the two bounds are equal. *)
Theorem parse_criteria_value_upper_bound (s : string) (lo : Z) (hi : bound) :
  parse_criteria_value s = Ok (lo, hi) ->
  (hi = Inf <-> PyStr.contains "+" s = true) /\
  (PyStr.contains "+" s = false -> PyStr.contains "-" s = false ->
   hi = Int lo).
Proof.
  rewrite parse_criteria_value_cases.
  destruct (PyStr.contains "+" s).
  - destruct (PyStr.int _); cbn [bind]; [| discriminate].
    intros [= <- <-]. split; [tauto | discriminate].
  - destruct (PyStr.contains "-" s) eqn:D.
    + destruct (split_present "-" s D) as (a & b & fs & ->).
      destruct (PyStr.int a); cbn [bind]; [| discriminate].
      destruct (PyStr.int b); cbn [bind]; [| discriminate].
      intros [= <- <-]. split; [split; discriminate | discriminate].
    + destruct (PyStr.int s); cbn [bind]; [| discriminate].
      intros [= <- <-]. split; [split; discriminate | reflexivity].
Qed.

Lemma parse_criteria_value_upper_bound_witness :
  (Inf = Inf <-> PyStr.contains "+" "2+" = true) /\
  (PyStr.contains "+" "2+" = false -> PyStr.contains "-" "2+" = false ->
   Inf = Int 2).
Proof.
  apply (parse_criteria_value_upper_bound "2+" 2 Inf). reflexivity.
Defined.

(** X3: without a '+' in the spec the parsed bounds are never negative: a
    '-' is always read as the range separator, never as a sign. *)
Theorem parse_criteria_value_nonneg (s : string) (lo hi : Z) :
  PyStr.contains "+" s = false ->
  parse_criteria_value s = Ok (lo, Int hi) ->
  0 <= lo /\ 0 <= hi.
Proof.
  intros Hp. rewrite parse_criteria_value_cases, Hp.
  destruct (PyStr.contains "-" s) eqn:D.
  - pose proof (split_no_sep "-" s) as F.
    destruct (split_present "-" s D) as (a & b & fs & E). rewrite E in *.
    inversion F as [| ? ? Ha F']; subst. inversion F' as [| ? ? Hb _]; subst.
    destruct (PyStr.int a) eqn:Ea; cbn [bind]; [| discriminate].
    destruct (PyStr.int b) eqn:Eb; cbn [bind]; [| discriminate].
    intros [= <- <-].
    split; [apply (int_nonneg a) | apply (int_nonneg b)]; assumption.
  - destruct (PyStr.int s) eqn:E; cbn [bind]; [| discriminate].
    intros [= <- <-]. split; apply (int_nonneg s); assumption.
Qed.

Lemma parse_criteria_value_nonneg_witness : 0 <= 3 /\ 0 <= 4.
Proof. apply (parse_criteria_value_nonneg "3-4" 3 4); reflexivity. Defined.

(** ** Further properties of the similarity filter *)

Section FilterMore.

Lemma filter_none {A : Type} (keep : A -> bool) (l : list A) :
  (forall x, In x l -> keep x = false) -> filter keep l = [].
Proof.
  induction l as [| x l IH]; intros H; simpl; [reflexivity |].
  rewrite (H x) by now left. apply IH. intros y Hy. apply H. now right.
Qed.

Lemma filter_comm {A : Type} (f g : A -> bool) (l : list A) :
  filter f (filter g l) = filter g (filter f l).
Proof.
  induction l as [| x l IH]; simpl; [reflexivity |].
  destruct (f x) eqn:F, (g x) eqn:G; simpl; rewrite ?F, ?G, IH; reflexivity.
Qed.

Lemma within_empty (v lo hi : Z) : hi < lo -> ~ within v (lo, Int hi).
Proof. unfold within. cbn [fst snd]. lia. Qed.

End FilterMore.

(** X4: a range whose upper bound is below its lower bound (what "5-3"
    parses to) matches nothing: with such a range for any of the three
    attributes the filter returns the empty list for every input. *)
Theorem filter_similar_properties_empty_range (inspections : list Inspection)
  (c : Criteria) (beds baths cars : Z * bound) (lo hi : Z) :
  parse_criteria_value (similar_bedrooms c) = Ok beds ->
  parse_criteria_value (similar_bathrooms c) = Ok baths ->
  parse_criteria_value (similar_car_spots c) = Ok cars ->
  hi < lo ->
  beds = (lo, Int hi) \/ baths = (lo, Int hi) \/ cars = (lo, Int hi) ->
  filter_similar_properties inspections c = Ok [].
Proof.
  intros Hb Ht Hc Hlt Hr.
  rewrite (filter_similar_properties_eq inspections c beds baths cars)
    by assumption.
  f_equal. apply filter_none. intros i _.
  destruct (matches_criteria _ _ _ _ _ _ i) eqn:M; [| reflexivity].
  apply matches_criteria_spec in M. destruct M as (M1 & M2 & M3).
  destruct Hr as [-> | [-> | ->]];
    [apply within_empty in M1 | apply within_empty in M2
    | apply within_empty in M3]; tauto.
Qed.

Lemma filter_similar_properties_empty_range_witness :
  filter_similar_properties morning_inspections
    {| similar_bedrooms := "5-3"; similar_bathrooms := "2+";
       similar_car_spots := "1-2" |} = Ok [].
Proof.
  apply (filter_similar_properties_empty_range morning_inspections _
           (5, Int 3) (2, Inf) (1, Int 2) 5 3);
    [reflexivity | reflexivity | reflexivity | lia | now left].
Defined.

(** X5: the filter raises exactly when one of the three criteria fails to
    parse, whatever the inspections are, the empty list included; the
    exception is a ValueError. *)
Theorem filter_similar_properties_raises (inspections : list Inspection)
  (c : Criteria) :
  (raises (filter_similar_properties inspections c) <->
   raises (parse_criteria_value (similar_bedrooms c)) \/
   raises (parse_criteria_value (similar_bathrooms c)) \/
   raises (parse_criteria_value (similar_car_spots c))) /\
  (forall e, filter_similar_properties inspections c = Raise e ->
             e = ValueError).
Proof.
  unfold filter_similar_properties, raises.
  destruct (parse_criteria_value_total (similar_bedrooms c))
    as [-> | [[? ?] ->]]; cbn [bind].
  { split; [split; eauto |]. now intros e [= <-]. }
  destruct (parse_criteria_value_total (similar_bathrooms c))
    as [-> | [[? ?] ->]]; cbn [bind].
  { split; [split; eauto |]. now intros e [= <-]. }
  destruct (parse_criteria_value_total (similar_car_spots c))
    as [-> | [[? ?] ->]]; cbn [bind].
  { split; [split; eauto |]. now intros e [= <-]. }
  split; [| discriminate].
  split; [intros [e H]; discriminate |].
  intros [[e H] | [[e H] | [e H]]]; discriminate.
Qed.

(** X6: the filter works record by record: the output for a concatenation
    is the concatenation of the outputs, and filtering by two sets of
    criteria gives the same list in either order. *)
Theorem filter_similar_properties_compose (c c' : Criteria)
  (l1 l2 o1 o2 : list Inspection) :
  filter_similar_properties l1 c = Ok o1 ->
  filter_similar_properties l2 c = Ok o2 ->
  filter_similar_properties (l1 ++ l2) c = Ok (o1 ++ o2)%list /\
  (forall o1',
     filter_similar_properties l1 c' = Ok o1' ->
     exists both,
       filter_similar_properties o1 c' = Ok both /\
       filter_similar_properties o1' c = Ok both).
Proof.
  intros H1 H2.
  destruct (parse_criteria_value (similar_bedrooms c)) as [beds |] eqn:Eb;
    [| unfold filter_similar_properties in H1; rewrite Eb in H1; discriminate].
  destruct (parse_criteria_value (similar_bathrooms c)) as [baths |] eqn:Et;
    [| unfold filter_similar_properties in H1; rewrite Eb, Et in H1;
       destruct beds; discriminate].
  destruct (parse_criteria_value (similar_car_spots c)) as [cars |] eqn:Ec;
    [| unfold filter_similar_properties in H1; rewrite Eb, Et, Ec in H1;
       destruct beds, baths; discriminate].
  pose proof (fun l => filter_similar_properties_eq l c beds baths cars
                         Eb Et Ec) as F.
  rewrite F in H1, H2. injection H1 as <-. injection H2 as <-.
  split; [now rewrite F, filter_app |].
  intros o1' H1'.
  destruct (parse_criteria_value (similar_bedrooms c')) as [beds' |] eqn:Eb';
    [| unfold filter_similar_properties in H1'; rewrite Eb' in H1';
       discriminate].
  destruct (parse_criteria_value (similar_bathrooms c')) as [baths' |] eqn:Et';
    [| unfold filter_similar_properties in H1'; rewrite Eb', Et' in H1';
       destruct beds'; discriminate].
  destruct (parse_criteria_value (similar_car_spots c')) as [cars' |] eqn:Ec';
    [| unfold filter_similar_properties in H1'; rewrite Eb', Et', Ec' in H1';
       destruct beds', baths'; discriminate].
  pose proof (fun l => filter_similar_properties_eq l c' beds' baths' cars'
                         Eb' Et' Ec') as F'.
  rewrite F' in H1'. injection H1' as <-.
  eexists. split; [apply F' |]. rewrite F. f_equal. apply filter_comm.
Qed.

Lemma filter_similar_properties_compose_witness :
  filter_similar_properties (morning_inspections ++ morning_inspections)
    default_criteria
  = Ok (filter (matches_criteria 3 (Int 4) 2 Inf 1 (Int 2)) morning_inspections
        ++ filter (matches_criteria 3 (Int 4) 2 Inf 1 (Int 2))
             morning_inspections)%list.
Proof.
  apply (filter_similar_properties_compose default_criteria default_criteria
           morning_inspections morning_inspections); reflexivity.
Defined.

Lemma filter_similar_properties_raises_witness :
  raises (filter_similar_properties []
            {| similar_bedrooms := "three"; similar_bathrooms := "2+";
               similar_car_spots := "1-2" |}).
Proof.
  apply (proj1 (filter_similar_properties_raises [] _)).
  left. exists ValueError. reflexivity.
Defined.

(** ** Further properties of the aggregation *)

Section AggregationMore.

Lemma window_hour_prefix (hh mm : string) :
  PyStr.contains ":" hh = false ->
  window_hour (hh ++ ":" ++ mm) = PyStr.int hh /\
  window_hour hh = PyStr.int hh.
Proof.
  intros H. unfold window_hour. cbn [append]. split.
  - rewrite split_app by assumption. reflexivity.
  - rewrite split_absent by assumption. reflexivity.
Qed.

Lemma filter_perm {A : Type} (f : A -> bool) (l l' : list A) :
  Permutation l l' -> Permutation (filter f l) (filter f l').
Proof.
  induction 1 as [| x l l' _ IH | x y l | l l' l'' _ IH1 _ IH2]; simpl.
  - constructor.
  - destruct (f x); [now constructor | exact IH].
  - destruct (f x), (f y); try reflexivity. apply perm_swap.
  - now transitivity (filter f l').
Qed.

Lemma combine_map_same {A B C : Type} (f : A -> B) (g : A -> C) (l : list A) :
  combine (map f l) (map g l) = map (fun x => (f x, g x)) l.
Proof. induction l as [| x l IH]; simpl; [reflexivity | now rewrite IH]. Qed.

Lemma length_window_times_gen (s e : Z) :
  List.length (window_times s e) = Z.to_nat (2 * (e - s) + 1).
Proof.
  destruct (Z_lt_le_dec e s) as [H | H].
  - rewrite window_times_empty by assumption. cbn [List.length]. lia.
  - pose proof (length_window_times s e H). lia.
Qed.

Lemma sorted_app_le {A : Type} (key : A -> Z) (l1 l2 : list A) :
  StronglySorted (key_le key) (l1 ++ l2) ->
  forall a b, In a l1 -> In b l2 -> key a <= key b.
Proof.
  induction l1 as [| x l1 IH]; intros S a b Ha Hb; [destruct Ha |].
  simpl in S. inversion S as [| ? ? S' F]; subst.
  destruct Ha as [<- | Ha].
  - rewrite Forall_forall in F. apply F, in_or_app. now right.
  - now apply IH.
Qed.

Lemma find_filter {A : Type} (f : A -> bool) (l : list A) :
  find f l = hd_error (filter f l).
Proof.
  induction l as [| x l IH]; simpl; [reflexivity |].
  destruct (f x); [reflexivity | exact IH].
Qed.

Lemma length_recommendations (slots : list Slot) :
  List.length (recommendations slots) = Nat.min 5 (List.length slots).
Proof.
  unfold recommendations. rewrite length_firstn. f_equal.
  apply Permutation_length, sorted_perm.
Qed.

End AggregationMore.

(** X7: of the two window bounds only the text before the first ':' is
    read: the minutes of the window are ignored, so "09:45"-"16:30" gives
    the buckets of "09:00"-"16:00", as do the bare hours "09"-"16". *)
Theorem analyze_competition_ignores_minutes (inspections : list Inspection)
  (h1 m1 m1' h2 m2 m2' : string) :
  PyStr.contains ":" h1 = false ->
  PyStr.contains ":" h2 = false ->
  analyze_competition inspections
    {| filter_start := Some (h1 ++ ":" ++ m1);
       filter_end := Some (h2 ++ ":" ++ m2) |}
  = analyze_competition inspections
      {| filter_start := Some (h1 ++ ":" ++ m1');
         filter_end := Some (h2 ++ ":" ++ m2') |} /\
  analyze_competition inspections
    {| filter_start := Some (h1 ++ ":" ++ m1);
       filter_end := Some (h2 ++ ":" ++ m2) |}
  = analyze_competition inspections
      {| filter_start := Some h1; filter_end := Some h2 |}.
Proof.
  intros H1 H2. unfold analyze_competition. cbn [filter_start filter_end get].
  destruct (window_hour_prefix h1 m1 H1) as [-> E1].
  destruct (window_hour_prefix h1 m1' H1) as [-> _].
  destruct (window_hour_prefix h2 m2 H2) as [-> E2].
  destruct (window_hour_prefix h2 m2' H2) as [-> _].
  rewrite E1, E2. split; reflexivity.
Qed.

Lemma analyze_competition_ignores_minutes_witness :
  analyze_competition morning_inspections
    {| filter_start := Some ("09" ++ ":" ++ "45");
       filter_end := Some ("11" ++ ":" ++ "30") |}
  = analyze_competition morning_inspections
      {| filter_start := Some ("09" ++ ":" ++ "00");
         filter_end := Some ("11" ++ ":" ++ "00") |}.
Proof.
  apply (analyze_competition_ignores_minutes morning_inspections
           "09" "45" "00" "11" "30" "00"); reflexivity.
Defined.

(** X8: the keys, counts and levels of the buckets do not depend on the
    order of the records: a reordered input aggregates to the same
    summary, the members of each bucket being reordered. *)
Theorem analyze_competition_order (inspections inspections' : list Inspection)
  (tf : TimeFilter) (slots : list Slot) :
  Permutation inspections inspections' ->
  analyze_competition inspections tf = Ok slots ->
  exists slots',
    analyze_competition inspections' tf = Ok slots' /\
    map summary slots' = map summary slots /\
    Forall2 (fun b b' => Permutation (properties b) (properties b'))
      slots slots'.
Proof.
  intros P H. apply analyze_competition_inv in H as (s & e & Hs & He & F & ->).
  assert (F' : Forall (fun i => parseable (start_time i)) inspections')
    by (now rewrite <- P).
  eexists. split; [exact (analyze_competition_eq _ tf s e Hs He F') |].
  split.
  - rewrite !map_map. apply map_ext. intros p. unfold summary, bucket_of.
    cbn [time count competition].
    now rewrite (Permutation_length (filter_perm (in_slot p) _ _ P)).
  - induction (window_times s e) as [| p times IH]; simpl; constructor;
      [| exact IH].
    cbn [properties bucket_of]. now apply filter_perm.
Qed.

Lemma analyze_competition_order_witness :
  exists slots',
    analyze_competition (List.rev morning_inspections) morning_window = Ok slots' /\
    map summary slots'
    = map summary (map (bucket_of morning_inspections) (window_times 9 11)) /\
    Forall2 (fun b b' => Permutation (properties b) (properties b'))
      (map (bucket_of morning_inspections) (window_times 9 11)) slots'.
Proof.
  apply (analyze_competition_order morning_inspections
           (List.rev morning_inspections) morning_window).
  - apply Permutation_rev.
  - vm_compute. reflexivity.
Defined.

(** X9: the aggregation is additive: the buckets of a concatenation have
    the keys of the buckets of its parts, the sum of their counts and the
    concatenation of their members. *)
Theorem analyze_competition_app (l1 l2 : list Inspection) (tf : TimeFilter)
  (s1 s2 : list Slot) :
  analyze_competition l1 tf = Ok s1 ->
  analyze_competition l2 tf = Ok s2 ->
  exists slots,
    analyze_competition (l1 ++ l2) tf = Ok slots /\
    map time slots = map time s1 /\
    map time slots = map time s2 /\
    map count slots
    = map (fun ab => count (fst ab) + count (snd ab)) (combine s1 s2) /\
    map properties slots
    = map (fun ab => (properties (fst ab) ++ properties (snd ab))%list)
        (combine s1 s2).
Proof.
  intros H1 H2.
  apply analyze_competition_inv in H1 as (s & e & Hs & He & F1 & ->).
  apply analyze_competition_inv in H2 as (s' & e' & Hs' & He' & F2 & ->).
  assert (s' = s) by congruence. assert (e' = e) by congruence. subst.
  eexists. split.
  - apply (analyze_competition_eq _ tf s e Hs He).
    apply Forall_app. now split.
  - rewrite combine_map_same, !map_map. cbn [fst snd].
    repeat split; try reflexivity; apply map_ext; intros p;
      cbn [count properties bucket_of]; rewrite filter_app;
      [rewrite length_app; lia | reflexivity].
Qed.

Lemma analyze_competition_app_witness :
  exists slots,
    analyze_competition (morning_inspections ++ morning_inspections)
      morning_window = Ok slots /\
    map time slots
    = map time (map (bucket_of morning_inspections) (window_times 9 11)) /\
    map time slots
    = map time (map (bucket_of morning_inspections) (window_times 9 11)) /\
    map count slots
    = map (fun ab => count (fst ab) + count (snd ab))
        (combine (map (bucket_of morning_inspections) (window_times 9 11))
           (map (bucket_of morning_inspections) (window_times 9 11))) /\
    map properties slots
    = map (fun ab => (properties (fst ab) ++ properties (snd ab))%list)
        (combine (map (bucket_of morning_inspections) (window_times 9 11))
           (map (bucket_of morning_inspections) (window_times 9 11))).
Proof.
  apply (analyze_competition_app morning_inspections morning_inspections
           morning_window); vm_compute; reflexivity.
Defined.

(** X10: a window whose end hour is below its start hour is not an error:
    when the start times parse the aggregation returns no bucket at all,
    and there is nothing to recommend. *)
Theorem analyze_competition_empty_window (inspections : list Inspection)
  (tf : TimeFilter) (s e : Z) :
  window_hour (get (filter_start tf) "09:00") = Ok s ->
  window_hour (get (filter_end tf) "16:00") = Ok e ->
  e < s ->
  Forall (fun i => parseable (start_time i)) inspections ->
  analyze_competition inspections tf = Ok [] /\
  recommendations [] = [].
Proof.
  intros Hs He Hlt F.
  rewrite (analyze_competition_eq inspections tf s e Hs He F).
  rewrite window_times_empty by assumption. split; reflexivity.
Qed.

Lemma analyze_competition_empty_window_witness :
  analyze_competition []
    {| filter_start := Some "17:00"; filter_end := Some "09:00" |} = Ok [] /\
  recommendations [] = [].
Proof.
  apply (analyze_competition_empty_window [] _ 17 9);
    [reflexivity | reflexivity | lia | constructor].
Defined.

(** X11: the number of recommendations is min(5, 2*(end-start)+1) for a
    window with start <= end: exactly five for a window of two hours or
    more, fewer only for a shorter one. *)
Theorem recommendations_count (inspections : list Inspection)
  (tf : TimeFilter) (s e : Z) (slots : list Slot) :
  window_hour (get (filter_start tf) "09:00") = Ok s ->
  window_hour (get (filter_end tf) "16:00") = Ok e ->
  analyze_competition inspections tf = Ok slots ->
  List.length (recommendations slots)
  = Nat.min 5 (Z.to_nat (2 * (e - s) + 1)) /\
  (s + 2 <= e -> List.length (recommendations slots) = 5%nat) /\
  (e < s + 2 -> (List.length (recommendations slots) < 5)%nat).
Proof.
  intros Hs He H.
  apply analyze_competition_inv in H as (s' & e' & Hs' & He' & _ & ->).
  assert (s' = s) by congruence. assert (e' = e) by congruence. subst.
  rewrite length_recommendations, length_map, length_window_times_gen.
  repeat split; intros; lia.
Qed.

Lemma recommendations_count_witness :
  List.length (recommendations
                 (map (bucket_of morning_inspections) (window_times 9 11)))
  = Nat.min 5 (Z.to_nat (2 * (11 - 9) + 1)).
Proof.
  apply (recommendations_count morning_inspections morning_window 9 11);
    first [lia | vm_compute; reflexivity].
Defined.

(** X12: the recommendations are the buckets of least count: the buckets
    left out all have a count at least as large as every recommended one;
    and the first recommendation is the earliest bucket among those of
    minimal count. *)
Theorem recommendations_least (slots : list Slot) :
  (exists rest,
     Permutation slots (recommendations slots ++ rest) /\
     forall a b, In a (recommendations slots) -> In b rest ->
                 count a <= count b) /\
  (forall best,
     hd_error (recommendations slots) = Some best ->
     (forall b, In b slots -> count best <= count b) /\
     find (fun b => count b =? count best) slots = Some best).
Proof.
  unfold recommendations. split.
  - exists (skipn 5 (sorted count slots)). split.
    + rewrite firstn_skipn. symmetry. apply sorted_perm.
    + apply (sorted_app_le count). rewrite firstn_skipn. apply sorted_sorted.
  - intros best H.
    destruct (sorted count slots) as [| x l] eqn:E; [discriminate |].
    cbn [firstn hd_error] in H. injection H as ->.
    pose proof (sorted_sorted count slots) as S. rewrite E in S.
    inversion S as [| ? ? _ F]; subst. split.
    + intros b Hb.
      apply (Permutation_in _ (Permutation_sym (sorted_perm count slots)))
        in Hb.
      rewrite E in Hb. destruct Hb as [<- | Hb]; [lia |].
      rewrite Forall_forall in F. apply (F b Hb).
    + rewrite find_filter.
      change (fun b => count b =? count best)
        with (has_key count (count best)).
      rewrite <- (sorted_stable count), E. cbn [filter].
      now rewrite has_key_refl.
Qed.

Lemma recommendations_least_witness :
  exists rest,
    Permutation (map (bucket_of morning_inspections) (window_times 9 11))
      (recommendations
         (map (bucket_of morning_inspections) (window_times 9 11)) ++ rest) /\
    forall a b,
      In a (recommendations
              (map (bucket_of morning_inspections) (window_times 9 11))) ->
      In b rest -> count a <= count b.
Proof.
  apply (recommendations_least
           (map (bucket_of morning_inspections) (window_times 9 11))).
Defined.

(** X13: the aggregation never returns two buckets with the same key. *)
Theorem analyze_competition_distinct_keys (inspections : list Inspection)
  (tf : TimeFilter) (slots : list Slot) :
  analyze_competition inspections tf = Ok slots ->
  NoDup (map time slots).
Proof.
  intros H. apply analyze_competition_inv in H as (s & e & _ & _ & _ & ->).
  rewrite map_map. apply NoDup_window_keys.
Qed.

Lemma analyze_competition_distinct_keys_witness :
  NoDup (map time (map (bucket_of morning_inspections) (window_times 9 11))).
Proof.
  apply (analyze_competition_distinct_keys morning_inspections morning_window).
  vm_compute. reflexivity.
Defined.

(** ** The address helper *)

Section Strip.

Lemma lstrip_idem (s : string) :
  PyStrMore.lstrip (PyStrMore.lstrip s) = PyStrMore.lstrip s.
Proof.
  induction s as [| c s IH]; cbn [PyStrMore.lstrip]; [reflexivity |].
  destruct (PyStrMore.is_unicode_space c) eqn:E; [exact IH |].
  cbn [PyStrMore.lstrip]. now rewrite E.
Qed.

Lemma rstrip_idem (s : string) :
  PyStrMore.rstrip (PyStrMore.rstrip s) = PyStrMore.rstrip s.
Proof.
  induction s as [| c s IH]; cbn [PyStrMore.rstrip]; [reflexivity |].
  destruct (PyStrMore.rstrip s) as [| c' r] eqn:E.
  - destruct (PyStrMore.is_unicode_space c) eqn:Sc; [reflexivity |].
    cbn [PyStrMore.rstrip]. now rewrite Sc.
  - cbn [PyStrMore.rstrip] in *. now rewrite IH.
Qed.

Lemma rstrip_head (c : ascii) (s : string) :
  PyStrMore.is_unicode_space c = false ->
  exists r, PyStrMore.rstrip (String c s) = String c r.
Proof.
  intros Sc. cbn [PyStrMore.rstrip].
  destruct (PyStrMore.rstrip s); [rewrite Sc |]; eauto.
Qed.

Lemma lstrip_rstrip (s : string) :
  PyStrMore.lstrip (PyStrMore.rstrip s) = PyStrMore.rstrip (PyStrMore.lstrip s).
Proof.
  induction s as [| c s IH]; [reflexivity |].
  cbn [PyStrMore.lstrip]. destruct (PyStrMore.is_unicode_space c) eqn:Sc.
  - rewrite <- IH. cbn [PyStrMore.rstrip].
    destruct (PyStrMore.rstrip s) as [| c' r]; rewrite ?Sc;
      cbn [PyStrMore.lstrip]; now rewrite ?Sc.
  - destruct (rstrip_head c s Sc) as [r ->].
    cbn [PyStrMore.lstrip]. now rewrite Sc.
Qed.

Lemma strip_stripped (s : string) : stripped (PyStrMore.strip s).
Proof.
  unfold stripped, PyStrMore.strip. split.
  - now rewrite <- lstrip_rstrip, lstrip_idem.
  - apply rstrip_idem.
Qed.

Lemma strip_lstrip (s : string) :
  PyStrMore.strip (PyStrMore.lstrip s) = PyStrMore.strip s.
Proof. unfold PyStrMore.strip. now rewrite lstrip_idem. Qed.

Lemma strip_rstrip (s : string) :
  PyStrMore.strip (PyStrMore.rstrip s) = PyStrMore.strip s.
Proof.
  unfold PyStrMore.strip. now rewrite lstrip_rstrip, rstrip_idem.
Qed.

Lemma contains_lstrip_u (c : ascii) (s : string) :
  PyStrMore.is_unicode_space c = false ->
  PyStr.contains c (PyStrMore.lstrip s) = PyStr.contains c s.
Proof.
  intros Hc. induction s as [| c' s IH]; [reflexivity |].
  cbn [PyStrMore.lstrip]. destruct (PyStrMore.is_unicode_space c') eqn:E;
    [| reflexivity].
  rewrite IH. cbn [PyStr.contains].
  destruct (Ascii.eqb_spec c' c) as [-> | _]; [congruence | reflexivity].
Qed.

Lemma contains_rstrip_u (c : ascii) (s : string) :
  PyStrMore.is_unicode_space c = false ->
  PyStr.contains c (PyStrMore.rstrip s) = PyStr.contains c s.
Proof.
  intros Hc. induction s as [| c' s IH]; [reflexivity |].
  cbn [PyStrMore.rstrip PyStr.contains]. rewrite <- IH.
  destruct (PyStrMore.rstrip s) as [| c'' r].
  - destruct (PyStrMore.is_unicode_space c') eqn:E; cbn [PyStr.contains].
    + destruct (Ascii.eqb_spec c' c) as [-> | _]; [congruence | reflexivity].
    + reflexivity.
  - reflexivity.
Qed.

Lemma contains_strip (c : ascii) (s : string) :
  PyStrMore.is_unicode_space c = false ->
  PyStr.contains c (PyStrMore.strip s) = PyStr.contains c s.
Proof.
  intros Hc. unfold PyStrMore.strip.
  now rewrite contains_rstrip_u, contains_lstrip_u.
Qed.

Lemma lstrip_app_stop (a b : string) (c : ascii) :
  PyStrMore.is_unicode_space c = false ->
  PyStrMore.lstrip (a ++ String c b) = PyStrMore.lstrip a ++ String c b.
Proof.
  intros Hc. induction a as [| c' a IH]; cbn [append PyStrMore.lstrip].
  - now rewrite Hc.
  - destruct (PyStrMore.is_unicode_space c'); [exact IH | reflexivity].
Qed.

Lemma rstrip_app_stop (a b : string) (c : ascii) :
  PyStrMore.is_unicode_space c = false ->
  PyStrMore.rstrip (a ++ String c b) = a ++ String c (PyStrMore.rstrip b).
Proof.
  intros Hc. induction a as [| c' a IH]; cbn [append].
  - cbn [PyStrMore.rstrip].
    destruct (PyStrMore.rstrip b); [now rewrite Hc | reflexivity].
  - cbn [PyStrMore.rstrip]. rewrite IH.
    destruct a; reflexivity.
Qed.

Lemma lower_char_not_upper (c : ascii) :
  is_upper (PyStrMore.lower_char c) = false.
Proof.
  destruct c as [[|] [|] [|] [|] [|] [|] [|] [|]]; reflexivity.
Qed.

Lemma lower_char_comma (c : ascii) :
  Ascii.eqb (PyStrMore.lower_char c) "," = Ascii.eqb c ",".
Proof.
  destruct c as [[|] [|] [|] [|] [|] [|] [|] [|]]; reflexivity.
Qed.

Lemma lower_no_upper (s : string) :
  string_forall (fun c => negb (is_upper c)) (PyStrMore.lower s) = true.
Proof.
  induction s as [| c s IH]; cbn [PyStrMore.lower string_forall];
    [reflexivity |].
  now rewrite lower_char_not_upper, IH.
Qed.

Lemma contains_comma_lower (s : string) :
  PyStr.contains "," (PyStrMore.lower s) = PyStr.contains "," s.
Proof.
  induction s as [| c s IH]; cbn [PyStrMore.lower PyStr.contains];
    [reflexivity |].
  now rewrite lower_char_comma, IH.
Qed.

Lemma replace_char_forall (P : ascii -> bool) (c d : ascii) (s : string) :
  P d = true -> string_forall P s = true ->
  string_forall P (PyStrMore.replace_char c d s) = true.
Proof.
  intros Hd. induction s as [| c' s IH];
    cbn [PyStrMore.replace_char string_forall]; [reflexivity |].
  intros H. apply andb_true_iff in H as [H1 H2].
  rewrite (IH H2). destruct (Ascii.eqb c' c); now rewrite ?Hd, ?H1.
Qed.

Lemma replace_char_gone (c d : ascii) (s : string) :
  Ascii.eqb d c = false ->
  PyStr.contains c (PyStrMore.replace_char c d s) = false.
Proof.
  intros Hd. induction s as [| c' s IH];
    cbn [PyStrMore.replace_char PyStr.contains]; [reflexivity |].
  destruct (Ascii.eqb c' c) eqn:E; [now rewrite Hd | now rewrite E].
Qed.

Lemma replace_char_other (c d x : ascii) (s : string) :
  Ascii.eqb c x = false -> Ascii.eqb d x = false ->
  PyStr.contains x (PyStrMore.replace_char c d s) = PyStr.contains x s.
Proof.
  intros Hc Hd. induction s as [| c' s IH];
    cbn [PyStrMore.replace_char PyStr.contains]; [reflexivity |].
  rewrite IH. destruct (Ascii.eqb_spec c' c) as [-> | _];
    [now rewrite Hc, Hd | reflexivity].
Qed.

End Strip.

Section Extract.

Lemma split_app_gen (sep : ascii) (x y : string) :
  PyStr.split sep (x ++ String sep y)
  = (PyStr.split sep x ++ PyStr.split sep y)%list.
Proof.
  unfold PyStr.split. induction x as [| c x IH]; cbn [append PyStr.split_fields].
  - rewrite Ascii.eqb_refl. now destruct (PyStr.split_fields sep y).
  - destruct (PyStr.split_fields sep (x ++ String sep y)) as [f fs].
    destruct (PyStr.split_fields sep x) as [g gs].
    destruct (PyStr.split_fields sep y) as [h hs].
    cbn [app] in IH. injection IH as -> ->.
    destruct (Ascii.eqb c sep); reflexivity.
Qed.

Lemma index_from_end_last2 {A : Type} (init : list A) (a b : A) :
  index_from_end (init ++ [a; b]) 2 = Ok a /\
  index_from_end (init ++ [a; b]) 1 = Ok b /\
  (List.length (init ++ [a; b]) <? 2)%nat = false.
Proof.
  unfold index_from_end, index. rewrite length_app. cbn [List.length].
  replace (2 <=? List.length init + 2)%nat with true
    by (symmetry; apply Nat.leb_le; lia).
  replace (1 <=? List.length init + 2)%nat with true
    by (symmetry; apply Nat.leb_le; lia).
  replace (List.length init + 2 - 2)%nat with (List.length init + 0)%nat by lia.
  replace (List.length init + 2 - 1)%nat with (List.length init + 1)%nat by lia.
  rewrite !nth_error_app2 by lia.
  replace (List.length init + 0 - List.length init)%nat with 0%nat by lia.
  replace (List.length init + 1 - List.length init)%nat with 1%nat by lia.
  repeat split. apply Nat.ltb_ge. lia.
Qed.

Lemma last_two {A : Type} (l : list A) :
  (2 <= List.length l)%nat -> exists init a b, l = (init ++ [a; b])%list.
Proof.
  intros H. destruct (exists_last (l := l)) as (l1 & b & ->);
    [destruct l; [simpl in H; lia | discriminate] |].
  rewrite length_app in H. cbn [List.length] in H.
  destruct (exists_last (l := l1)) as (init & a & ->);
    [destruct l1; [simpl in H; lia | discriminate] |].
  exists init, a, b. now rewrite <- app_assoc.
Qed.

(** With at least two comma-separated fields, the suburb comes from the
    last but one and the postcode from the last. *)
Lemma extract_fields (address : string) (init : list string) (a b : string) :
  PyStr.split "," (PyStrMore.strip address) = (init ++ [a; b])%list ->
  extract_suburb_postcode address
  = Ok (PyStrMore.replace_char " " "-" (PyStrMore.lower (PyStrMore.strip a)),
        PyStrMore.strip b).
Proof.
  intros E. unfold extract_suburb_postcode. rewrite E.
  destruct (index_from_end_last2 init a b) as (-> & -> & ->). reflexivity.
Qed.

Lemma extract_no_comma (address : string) :
  PyStr.contains "," address = false ->
  extract_suburb_postcode address = Ok ("sydney", "2000").
Proof.
  intros H. unfold extract_suburb_postcode.
  rewrite split_absent by (now rewrite contains_strip). reflexivity.
Qed.

Lemma extract_comma (address : string) :
  PyStr.contains "," address = true ->
  exists init a b,
    PyStr.split "," (PyStrMore.strip address) = (init ++ [a; b])%list.
Proof.
  intros H. apply last_two.
  destruct (split_present "," (PyStrMore.strip address)) as (x & y & fs & ->);
    [now rewrite contains_strip | simpl; lia].
Qed.

End Extract.

(** X14: the address helper never raises: an address without a comma,
    the empty one included, gives the defaults ("sydney", "2000"); an
    address with a comma gives a suburb and a postcode read from its last
    two comma-separated fields. *)
Theorem extract_suburb_postcode_total (address : string) :
  (PyStr.contains "," address = false ->
   extract_suburb_postcode address = Ok ("sydney", "2000")) /\
  (PyStr.contains "," address = true ->
   exists init a b,
     PyStr.split "," (PyStrMore.strip address) = (init ++ [a; b])%list /\
     extract_suburb_postcode address
     = Ok (PyStrMore.replace_char " " "-"
             (PyStrMore.lower (PyStrMore.strip a)),
           PyStrMore.strip b)) /\
  exists suburb postcode,
    extract_suburb_postcode address = Ok (suburb, postcode).
Proof.
  split; [apply extract_no_comma |].
  split.
  - intros H. destruct (extract_comma address H) as (init & a & b & E).
    exists init, a, b. split; [exact E | exact (extract_fields _ _ _ _ E)].
  - destruct (PyStr.contains "," address) eqn:H.
    + destruct (extract_comma address H) as (init & a & b & E).
      rewrite (extract_fields address init a b E). eauto.
    + rewrite (extract_no_comma address H). eauto.
Qed.

Lemma extract_suburb_postcode_total_witness :
  extract_suburb_postcode "" = Ok ("sydney", "2000").
Proof. apply (proj1 (extract_suburb_postcode_total "")). reflexivity. Defined.

(** X15: whatever the address, the suburb the helper returns holds no
    space, no upper-case letter and no comma, and the postcode has no
    white space at either end and no comma. *)
Theorem extract_suburb_postcode_format (address suburb postcode : string) :
  extract_suburb_postcode address = Ok (suburb, postcode) ->
  PyStr.contains " " suburb = false /\
  string_forall (fun c => negb (is_upper c)) suburb = true /\
  PyStr.contains "," suburb = false /\
  stripped postcode /\
  PyStr.contains "," postcode = false.
Proof.
  destruct (PyStr.contains "," address) eqn:H.
  - destruct (extract_comma address H) as (init & a & b & E).
    rewrite (extract_fields address init a b E). intros [= <- <-].
    pose proof (split_no_sep "," (PyStrMore.strip address)) as F.
    rewrite E in F. apply Forall_app in F as [_ F].
    inversion F as [| ? ? Ha F']; subst. inversion F' as [| ? ? Hb _]; subst.
    repeat split.
    + now apply replace_char_gone.
    + apply replace_char_forall; [reflexivity | apply lower_no_upper].
    + rewrite replace_char_other by reflexivity.
      rewrite contains_comma_lower, contains_strip by reflexivity. exact Ha.
    + apply strip_stripped.
    + apply strip_stripped.
    + rewrite contains_strip by reflexivity. exact Hb.
  - rewrite (extract_no_comma address H). intros [= <- <-].
    repeat split.
Qed.

Lemma extract_suburb_postcode_format_witness :
  PyStr.contains " " "surry-hills" = false /\
  string_forall (fun c => negb (is_upper c)) "surry-hills" = true /\
  PyStr.contains "," "surry-hills" = false /\
  stripped "2010" /\
  PyStr.contains "," "2010" = false.
Proof.
  apply (extract_suburb_postcode_format "12 King Street, Surry Hills, 2010").
  reflexivity.
Defined.

(** X16: an address that ends in "<suburb>,<postcode>", alone or after
    other comma-terminated text, gives back that suburb, trimmed, in lower
    case and with '-' for each space, and that postcode, trimmed. *)
Theorem extract_suburb_postcode_fields (before suburb postcode : string) :
  PyStr.contains "," suburb = false ->
  PyStr.contains "," postcode = false ->
  extract_suburb_postcode (suburb ++ "," ++ postcode)
  = Ok (PyStrMore.replace_char " " "-"
          (PyStrMore.lower (PyStrMore.strip suburb)),
        PyStrMore.strip postcode) /\
  extract_suburb_postcode (before ++ "," ++ suburb ++ "," ++ postcode)
  = Ok (PyStrMore.replace_char " " "-"
          (PyStrMore.lower (PyStrMore.strip suburb)),
        PyStrMore.strip postcode).
Proof.
  intros Hs Hp. cbn [append]. split.
  - rewrite (extract_fields _ [] (PyStrMore.lstrip suburb)
               (PyStrMore.rstrip postcode)).
    + now rewrite strip_lstrip, strip_rstrip.
    + unfold PyStrMore.strip.
      rewrite lstrip_app_stop, rstrip_app_stop by reflexivity.
      rewrite split_app by (now rewrite contains_lstrip_u).
      rewrite split_absent by (now rewrite contains_rstrip_u). reflexivity.
  - rewrite (extract_fields _ (PyStr.split "," (PyStrMore.lstrip before))
               suburb (PyStrMore.rstrip postcode)).
    + now rewrite strip_rstrip.
    + unfold PyStrMore.strip.
      rewrite lstrip_app_stop by reflexivity.
      replace (PyStrMore.lstrip before ++ String "," (suburb ++ String "," postcode))
        with ((PyStrMore.lstrip before ++ String "," suburb) ++ String "," postcode).
      * rewrite rstrip_app_stop by reflexivity.
        rewrite split_app_gen, split_app_gen.
        rewrite (split_absent "," suburb) by assumption.
        rewrite (split_absent "," (PyStrMore.rstrip postcode))
          by (now rewrite contains_rstrip_u).
        now rewrite <- app_assoc.
      * clear. induction (PyStrMore.lstrip before) as [| c s IH];
          cbn [append]; [reflexivity | now rewrite IH].
Qed.

Lemma extract_suburb_postcode_fields_witness :
  extract_suburb_postcode (" Surry Hills" ++ "," ++ " 2010")
  = Ok (PyStrMore.replace_char " " "-"
          (PyStrMore.lower (PyStrMore.strip " Surry Hills")),
        PyStrMore.strip " 2010") /\
  extract_suburb_postcode
    ("12 King Street" ++ "," ++ " Surry Hills" ++ "," ++ " 2010")
  = Ok (PyStrMore.replace_char " " "-"
          (PyStrMore.lower (PyStrMore.strip " Surry Hills")),
        PyStrMore.strip " 2010").
Proof.
  apply (extract_suburb_postcode_fields "12 King Street" " Surry Hills" " 2010");
    reflexivity.
Defined.

(** ** Mock data *)

Section MockData.
Context {G : Type} (R : Random G) (HR : lawful R).

Lemma randint_ok (a b : Z) (g : G) :
  a <= b ->
  exists v g', randint R a b g = Ok (v, g') /\ a <= v <= b.
Proof.
  intros H. unfold randint.
  destruct (Z.ltb_spec 0 (b + 1 - a)) as [_ | ?]; [| lia].
  pose proof (proj1 HR (Z.to_nat (b + 1 - a)) g) as L.
  destruct (randbelow R (Z.to_nat (b + 1 - a)) g) as [r g'].
  cbn [fst] in L. exists (a + Z.of_nat r), g'. split; [reflexivity | lia].
Qed.

Lemma index_lt {A : Type} (l : list A) (i : nat) :
  (i < List.length l)%nat -> exists x, index l i = Ok x /\ In x l.
Proof.
  intros H. unfold index.
  destruct (nth_error l i) as [x |] eqn:E.
  - exists x. split; [reflexivity | eapply nth_error_In, E].
  - apply nth_error_None in E. lia.
Qed.

Lemma choice_ok {A : Type} (seq : list A) (g : G) :
  seq <> [] ->
  exists x g', choice R seq g = Ok (x, g') /\ In x seq.
Proof.
  intros H. unfold choice. destruct seq as [| y seq']; [congruence |].
  pose proof (proj1 HR (List.length (y :: seq')) g) as L.
  destruct (randbelow R (List.length (y :: seq')) g) as [i g'].
  cbn [fst] in L.
  destruct (index_lt (y :: seq') i) as (x & E & I); [apply L; simpl; lia |].
  exists x, g'. unfold lift. rewrite E. auto.
Qed.

Lemma choices1_ok {A : Type} (population : list A) (weights : list Z)
  (g : G) :
  List.length weights = List.length population ->
  0 < fold_right Z.add 0 weights ->
  exists x g', choices1 R population weights g = Ok (x, g') /\ In x population.
Proof.
  intros Hl Hw. unfold choices1. rewrite Hl, Nat.eqb_refl. cbn [negb].
  destruct (Z.leb_spec (fold_right Z.add 0 weights) 0) as [? | _]; [lia |].
  assert (Hne : weights <> []) by (intros ->; simpl in Hw; lia).
  pose proof (proj2 HR weights g Hne) as L.
  destruct (weighted_index R weights g) as [i g']. cbn [fst] in L.
  destruct (index_lt population i) as (x & E & I); [lia |].
  exists x, g'. unfold lift. rewrite E. auto.
Qed.

Lemma mock_inspection_ok (on_date postcode : string) (g : G) :
  exists i g',
    mock_inspection R on_date postcode g = Ok (i, g') /\
    mock_record on_date postcode i.
Proof.
  unfold mock_inspection, bind_rand.
  destruct (choices1_ok [1; 2; 3; 4; 5; 6] [10; 25; 30; 25; 8; 2] g)
    as (beds & g1 & -> & Hbeds); [reflexivity | reflexivity |].
  destruct (choices1_ok [1; 2; 3; 4] [20; 50; 25; 5] g1)
    as (baths & g2 & -> & Hbaths); [reflexivity | reflexivity |].
  destruct (choices1_ok [0; 1; 2; 3; 4] [15; 35; 35; 12; 3] g2)
    as (cars & g3 & -> & Hcars); [reflexivity | reflexivity |].
  destruct (randint_ok 1 999 g3) as (number & g4 & -> & Hnumber); [lia |].
  destruct (choice_ok street_names g4) as (street & g5 & -> & Hstreet);
    [discriminate |].
  destruct (choice_ok suburbs g5) as (suburb_name & g6 & -> & Hsuburb);
    [discriminate |].
  destruct (choice_ok property_types g6) as (type & g7 & -> & Htype);
    [discriminate |].
  destruct (choice_ok time_slots g7) as ([slot_start slot_end] & g8 & -> & Hslot);
    [discriminate |].
  eexists. exists g8. split; [reflexivity |].
  unfold mock_record.
  cbn [date start_time end_time address property_details].
  split; [reflexivity |]. split; [exact Hslot |]. split.
  - exists number, street, suburb_name. auto.
  - exists beds, baths, cars, type.
    repeat split; try assumption;
      simpl in Hbeds, Hbaths, Hcars; intuition lia.
Qed.

Lemma mock_loop_ok (on_date postcode : string) (n : nat) :
  forall results g,
    Forall (mock_record on_date postcode) results ->
    exists out g',
      mock_loop R on_date postcode n results g = Ok (out, g') /\
      List.length out = (List.length results + n)%nat /\
      Forall (mock_record on_date postcode) out.
Proof.
  induction n as [| n IH]; intros results g F; cbn [mock_loop].
  - exists results, g. unfold ret. repeat split; [lia | assumption].
  - unfold bind_rand.
    destruct (mock_inspection_ok on_date postcode g) as (i & g1 & -> & Hi).
    destruct (IH (results ++ [i])%list g1) as (out & g' & E & L & F').
    + apply Forall_app. split; [assumption | now constructor].
    + exists out, g'. split; [exact E |]. split; [| exact F'].
      rewrite L, length_app. simpl. lia.
Qed.

Lemma generate_mock_data_ok (on_date suburb postcode : string) (g : G) :
  exists results g',
    generate_mock_data R on_date suburb postcode g = Ok (results, g') /\
    (12 <= List.length results <= 25)%nat /\
    Forall (mock_record on_date postcode) results.
Proof.
  unfold generate_mock_data, bind_rand.
  destruct (randint_ok 12 25 g) as (n & g1 & -> & Hn); [lia |].
  destruct (mock_loop_ok on_date postcode (Z.to_nat n) [] g1)
    as (out & g' & E & L & F); [constructor |].
  exists out, g'. split; [exact E |]. split; [simpl in L; lia | exact F].
Qed.

End MockData.

Section MockWindow.

Lemma time_slots_parse :
  Forall (fun slot =>
            exists hour minute,
              parse_start_time (fst slot) = Ok (hour, minute) /\
              9 <= hour <= 15 /\ (minute = 0 \/ minute = 30) /\
              snd slot = time_key (if minute =? 30 then hour + 1 else hour)
                           (30 - minute))
    time_slots.
Proof.
  unfold time_slots.
  repeat (constructor;
          [eexists; eexists; split; [vm_compute; reflexivity |];
           split; [lia |]; split; [auto | vm_compute; reflexivity] |]).
  constructor.
Qed.

Lemma mock_record_in_window (on_date postcode : string) (i : Inspection)
  (s e : Z) :
  s <= 9 -> 16 <= e ->
  mock_record on_date postcode i -> in_window s e i.
Proof.
  intros Hs He (_ & Hslot & _).
  pose proof time_slots_parse as F. rewrite Forall_forall in F.
  destruct (F _ Hslot) as (hour & minute & P & Hh & Hm & _).
  cbn [fst] in P. exists hour, minute. split; [exact P |]. lia.
Qed.

Lemma in_window_parseable (s e : Z) (i : Inspection) :
  in_window s e i -> parseable (start_time i).
Proof.
  intros (hour & minute & P & _). apply parsed_parseable. eauto.
Qed.

Lemma sum_counts_in_window (l : list Inspection) (s e : Z) :
  Forall (in_window s e) l ->
  sum_counts (map (bucket_of l) (window_times s e)) = Z.of_nat (List.length l).
Proof.
  intros F. rewrite sum_counts_buckets by apply NoDup_window_times.
  f_equal. apply filter_length_all.
  eapply Forall_impl; [| exact F]. intros i. apply existsb_in_window.
Qed.

Lemma Subseq_Forall {A : Type} (P : A -> Prop) (l1 l2 : list A) :
  Subseq l1 l2 -> Forall P l2 -> Forall P l1.
Proof.
  induction 1 as [| x l1 l2 _ IH | x l1 l2 _ IH]; intros F.
  - constructor.
  - inversion F; subst. auto.
  - inversion F; subst. constructor; auto.
Qed.

Lemma Subseq_length {A : Type} (l1 l2 : list A) :
  Subseq l1 l2 -> (List.length l1 <= List.length l2)%nat.
Proof. induction 1; simpl; lia. Qed.

End MockWindow.

(** ** The pipeline of the request handlers *)

Section Pipeline.

Lemma window_hour_total (bound_str : string) :
  window_hour bound_str = Raise ValueError \/
  exists hour, window_hour bound_str = Ok hour.
Proof.
  unfold window_hour. destruct (split_cons ":" bound_str) as (f & fs & ->).
  cbn [index nth_error bind]. destruct (int_total f) as [-> | [v ->]]; eauto.
Qed.

Lemma count_inspections_raise (inspections : list Inspection) :
  forall d e, count_inspections inspections d = Raise e ->
              ~ Forall (fun i => parseable (start_time i)) inspections.
Proof.
  induction inspections as [| i inspections IH]; intros d e H F;
    cbn [count_inspections] in H; [discriminate |].
  inversion F as [| ? ? Hi F']; subst.
  apply parsed_parseable in Hi as (hour & minute & P).
  unfold count_inspection in H. rewrite P in H. cbn [bind] in H.
  destruct (Dict.mem _ d); cbn [bind] in H; eapply IH; eassumption.
Qed.

(** The aggregation of records that parse: it returns the buckets of the
    window, or raises ValueError on a window hour that does not parse. *)
Lemma analyze_competition_cases (l : list Inspection) (tf : TimeFilter) :
  Forall (fun i => parseable (start_time i)) l ->
  (exists s e,
      window_hour (get (filter_start tf) "09:00") = Ok s /\
      window_hour (get (filter_end tf) "16:00") = Ok e /\
      analyze_competition l tf = Ok (map (bucket_of l) (window_times s e))) \/
  ((raises (window_hour (get (filter_start tf) "09:00")) \/
    raises (window_hour (get (filter_end tf) "16:00"))) /\
   analyze_competition l tf = Raise ValueError).
Proof.
  intros F.
  destruct (window_hour_total (get (filter_start tf) "09:00"))
    as [Hs | [s Hs]].
  { right. split; [left; now exists ValueError |].
    unfold analyze_competition. now rewrite Hs. }
  destruct (window_hour_total (get (filter_end tf) "16:00"))
    as [He | [e He]].
  { right. split; [right; now exists ValueError |].
    unfold analyze_competition. now rewrite Hs, He. }
  left. exists s, e. repeat split; try assumption.
  now apply analyze_competition_eq.
Qed.

(** The filter: it returns a sub-list, or raises ValueError on a range
    spec that does not parse. *)
Lemma filter_similar_properties_cases (l : list Inspection) (c : Criteria) :
  (exists beds baths cars,
      parse_criteria_value (similar_bedrooms c) = Ok beds /\
      parse_criteria_value (similar_bathrooms c) = Ok baths /\
      parse_criteria_value (similar_car_spots c) = Ok cars /\
      filter_similar_properties l c
      = Ok (filter (matches_criteria (fst beds) (snd beds) (fst baths)
                      (snd baths) (fst cars) (snd cars)) l)) \/
  ((raises (parse_criteria_value (similar_bedrooms c)) \/
    raises (parse_criteria_value (similar_bathrooms c)) \/
    raises (parse_criteria_value (similar_car_spots c))) /\
   filter_similar_properties l c = Raise ValueError).
Proof.
  destruct (parse_criteria_value_total (similar_bedrooms c))
    as [Hb | [beds Hb]].
  { right. split; [left; now exists ValueError |].
    unfold filter_similar_properties. now rewrite Hb. }
  destruct (parse_criteria_value_total (similar_bathrooms c))
    as [Ht | [baths Ht]].
  { right. split; [right; left; now exists ValueError |].
    unfold filter_similar_properties. rewrite Hb, Ht. now destruct beds. }
  destruct (parse_criteria_value_total (similar_car_spots c))
    as [Hc | [cars Hc]].
  { right. split; [right; right; now exists ValueError |].
    unfold filter_similar_properties. rewrite Hb, Ht, Hc.
    now destruct beds, baths. }
  left. exists beds, baths, cars. repeat split; try assumption.
  now apply filter_similar_properties_eq.
Qed.

Lemma not_raises_ok {A : Type} (a : A) : ~ raises (Ok a).
Proof. intros [e H]. discriminate. Qed.

Lemma analyse_eq {G : Type} (inspections : list Inspection) (c : Criteria)
  (tf : TimeFilter) (g : G) :
  analyse inspections c tf g
  = match filter_similar_properties inspections c with
    | Raise e => Raise e
    | Ok filtered =>
        match analyze_competition filtered tf with
        | Raise e => Raise e
        | Ok slots =>
            Ok ({| resp_inspections := inspections;
                   resp_filtered_inspections := filtered;
                   resp_competition_analysis := slots;
                   resp_recommendations := recommendations slots;
                   resp_total_inspections :=
                     Z.of_nat (List.length inspections);
                   resp_similar_inspections :=
                     Z.of_nat (List.length filtered);
                   resp_time_filter := tf;
                   resp_criteria := c |}, g)
        end
    end.
Proof.
  unfold analyse, bind_rand, lift, ret.
  destruct (filter_similar_properties inspections c); [| reflexivity].
  destruct (analyze_competition a tf); reflexivity.
Qed.

(** What a run of generation, filtering, aggregation and ranking comes to
    with a lawful generator. *)
Lemma pipeline_cases {G : Type} (R : Random G) (on_date suburb postcode : string)
  (c : Criteria) (tf : TimeFilter) (g : G) :
  lawful R ->
  (exists inspections g' s e data,
      (inspections' <~ generate_mock_data R on_date suburb postcode ;;
       analyse inspections' c tf) g = Ok (data, g') /\
      generate_mock_data R on_date suburb postcode g = Ok (inspections, g') /\
      (12 <= List.length inspections <= 25)%nat /\
      Forall (mock_record on_date postcode) inspections /\
      ~ malformed c tf /\
      window_hour (get (filter_start tf) "09:00") = Ok s /\
      window_hour (get (filter_end tf) "16:00") = Ok e /\
      resp_inspections data = inspections /\
      filter_similar_properties inspections c
      = Ok (resp_filtered_inspections data) /\
      Subseq (resp_filtered_inspections data) inspections /\
      analyze_competition (resp_filtered_inspections data) tf
      = Ok (resp_competition_analysis data) /\
      resp_competition_analysis data
      = map (bucket_of (resp_filtered_inspections data)) (window_times s e) /\
      resp_recommendations data
      = recommendations (resp_competition_analysis data) /\
      resp_total_inspections data = Z.of_nat (List.length inspections) /\
      resp_similar_inspections data
      = Z.of_nat (List.length (resp_filtered_inspections data)) /\
      resp_time_filter data = tf /\ resp_criteria data = c) \/
  (malformed c tf /\
   (inspections' <~ generate_mock_data R on_date suburb postcode ;;
    analyse inspections' c tf) g = Raise ValueError).
Proof.
  intros HR. unfold bind_rand.
  destruct (generate_mock_data_ok R HR on_date suburb postcode g)
    as (inspections & g' & E & L & F).
  rewrite E, analyse_eq.
  destruct (filter_similar_properties_cases inspections c)
    as [(beds & baths & cars & Hb & Ht & Hc & Ef) | [Hbad Ef]].
  2: { right. rewrite Ef. split; [unfold malformed; tauto | reflexivity]. }
  rewrite Ef.
  set (filtered := filter _ inspections) in *.
  assert (Sf : Subseq filtered inspections) by apply Subseq_filter.
  assert (Pf : Forall (fun i => parseable (start_time i)) filtered).
  { apply (Subseq_Forall _ _ _ Sf).
    eapply Forall_impl; [| exact F]. intros i Hi.
    apply (in_window_parseable 9 16).
    apply (mock_record_in_window on_date postcode); [lia | lia | exact Hi]. }
  destruct (analyze_competition_cases filtered tf Pf)
    as [(s & e & Hs & He & Ea) | [Hbad Ea]].
  2: { right. rewrite Ea. split; [unfold malformed; tauto | reflexivity]. }
  left. rewrite Ea. exists inspections, g', s, e. eexists.
  split; [reflexivity |].
  cbn [resp_inspections resp_filtered_inspections resp_competition_analysis
       resp_recommendations resp_total_inspections resp_similar_inspections
       resp_time_filter resp_criteria].
  repeat split; try assumption; try lia.
  unfold malformed. rewrite Hb, Ht, Hc, Hs, He.
  intros [H | [H | [H | [H | H]]]]; eapply not_raises_ok, H.
Qed.

End Pipeline.

Section HandlerFacts.

Lemma counter_random_lawful : lawful counter_random.
Proof.
  split; intros n g H; cbn [counter_random randbelow weighted_index fst].
  - now apply Nat.mod_upper_bound, Nat.neq_0_lt_0.
  - apply Nat.mod_upper_bound. destruct n; [congruence | discriminate].
Qed.

Lemma mock_record_viewing (on_date postcode : string) (i : Inspection) :
  mock_record on_date postcode i -> half_hour_viewing i.
Proof.
  intros (_ & Hslot & _).
  pose proof time_slots_parse as F. rewrite Forall_forall in F.
  destruct (F _ Hslot) as (hour & minute & P & Hh & Hm & He).
  exists hour, minute. auto.
Qed.

Lemma sum_counts_le (l : list Inspection) (s e : Z) :
  sum_counts (map (bucket_of l) (window_times s e)) <= Z.of_nat (List.length l).
Proof.
  rewrite sum_counts_buckets by apply NoDup_window_times.
  apply inj_le, filter_length_le.
Qed.

Lemma falsy_get (s : option string) :
  falsy s = false -> s = Some (get s "").
Proof. destruct s as [[| c s] |]; (discriminate || reflexivity). Qed.

Lemma extract_ok (address : string) :
  exists suburb postcode,
    extract_suburb_postcode address = Ok (suburb, postcode).
Proof.
  destruct (PyStr.contains "," address) eqn:H.
  - destruct (extract_comma address H) as (init & a & b & E).
    rewrite (extract_fields address init a b E). eauto.
  - rewrite (extract_no_comma address H). eauto.
Qed.

End HandlerFacts.

(** X17: with a lawful generator the mock data generation never raises
    and returns between 12 and 25 records; each has the requested date,
    an address made of a street number from 1 to 999, a street and a
    suburb of the lists and the given postcode, complete details with 1-6
    bedrooms, 1-4 bathrooms and 0-4 car spots, and is a half-hour viewing
    starting on a half-hour boundary from 09:00 to 15:30. *)
Theorem generate_mock_data_records {G : Type} (R : Random G)
  (on_date suburb postcode : string) (g : G) :
  lawful R ->
  exists results g',
    generate_mock_data R on_date suburb postcode g = Ok (results, g') /\
    (12 <= List.length results <= 25)%nat /\
    Forall (mock_record on_date postcode) results /\
    Forall half_hour_viewing results.
Proof.
  intros HR.
  destruct (generate_mock_data_ok R HR on_date suburb postcode g)
    as (results & g' & E & L & F).
  exists results, g'. repeat split; try assumption; try lia.
  eapply Forall_impl; [| exact F]. apply mock_record_viewing.
Qed.

Lemma generate_mock_data_records_witness :
  exists results g',
    generate_mock_data counter_random "2024-01-20" "sydney" "2000" 0%nat
    = Ok (results, g') /\
    (12 <= List.length results <= 25)%nat /\
    Forall (mock_record "2024-01-20" "2000") results /\
    Forall half_hour_viewing results.
Proof.
  apply (generate_mock_data_records counter_random "2024-01-20" "sydney"
           "2000" 0%nat).
  apply counter_random_lawful.
Defined.

(** X18: mock data always aggregate in full: on any sub-list of generated
    records (a filtered list, say) and any window from 09:00 or earlier to
    16:00 or later, the aggregation returns normally and every record is
    counted in a bucket. *)
Theorem mock_data_all_counted {G : Type} (R : Random G)
  (on_date suburb postcode : string) (g g' : G)
  (inspections l : list Inspection) (tf : TimeFilter) (s e : Z) :
  lawful R ->
  generate_mock_data R on_date suburb postcode g = Ok (inspections, g') ->
  Subseq l inspections ->
  window_hour (get (filter_start tf) "09:00") = Ok s ->
  window_hour (get (filter_end tf) "16:00") = Ok e ->
  s <= 9 -> 16 <= e ->
  exists slots,
    analyze_competition l tf = Ok slots /\
    sum_counts slots = Z.of_nat (List.length l) /\
    Forall (fun i => exists b, In b slots /\ In i (properties b)) l.
Proof.
  intros HR Gen Sl Hs He Hs9 He16.
  destruct (generate_mock_data_ok R HR on_date suburb postcode g)
    as (results & g'' & E & _ & F).
  rewrite Gen in E. injection E as <- <-.
  assert (W : Forall (in_window s e) l).
  { apply (Subseq_Forall _ _ _ Sl). eapply Forall_impl; [| exact F].
    intros i. now apply mock_record_in_window. }
  exists (map (bucket_of l) (window_times s e)). split; [| split].
  - apply analyze_competition_eq; try assumption.
    eapply Forall_impl; [| exact W]. apply in_window_parseable.
  - now apply sum_counts_in_window.
  - apply Forall_forall. intros i Hi.
    rewrite Forall_forall in W. pose proof (W i Hi) as Wi.
    apply existsb_in_window, existsb_exists in Wi as (p & Hp & S).
    exists (bucket_of l p). split; [now apply in_map |].
    cbn [properties bucket_of]. apply filter_In. auto.
Qed.

Lemma mock_data_all_counted_witness :
  exists slots,
    analyze_competition
      (match generate_mock_data counter_random "2024-01-20" "sydney" "2000"
               0%nat with
       | Ok (results, _) => results
       | Raise _ => []
       end) default_window = Ok slots /\
    sum_counts slots
    = Z.of_nat (List.length
                  (match generate_mock_data counter_random "2024-01-20"
                           "sydney" "2000" 0%nat with
                   | Ok (results, _) => results
                   | Raise _ => []
                   end)) /\
    Forall (fun i => exists b, In b slots /\ In i (properties b))
      (match generate_mock_data counter_random "2024-01-20" "sydney" "2000"
               0%nat with
       | Ok (results, _) => results
       | Raise _ => []
       end).
Proof.
  destruct (generate_mock_data counter_random "2024-01-20" "sydney" "2000"
              0%nat) as [[results g'] |] eqn:E.
  - apply (mock_data_all_counted counter_random "2024-01-20" "sydney" "2000"
             0%nat g' results results default_window 9 16);
      [apply counter_random_lawful | exact E | apply Subseq_refl
      | reflexivity | reflexivity | lia | lia].
  - destruct (generate_mock_data_ok counter_random counter_random_lawful
                "2024-01-20" "sydney" "2000" 0%nat) as (r & g' & E' & _).
    rewrite E' in E. discriminate E.
Defined.

(** X19: with a lawful generator [get_inspections] always answers and
    never lets an exception out: 400 exactly when the address or the date
    is absent or empty; otherwise 500, with a ValueError, exactly when a
    range spec or a window hour does not parse; otherwise 200. *)
Theorem get_inspections_status {G : Type} (R : Random G) (req : Request)
  (g : G) :
  lawful R ->
  exists resp,
    get_inspections R req g = Ok resp /\
    match resp with
    | Json400 msg =>
        falsy (arg_address req) || falsy (arg_date req) = true /\
        msg = "Missing address or date"
    | Json500 e =>
        falsy (arg_address req) || falsy (arg_date req) = false /\
        e = ValueError /\
        malformed (request_criteria req) (request_time_filter req)
    | Json200 _ =>
        falsy (arg_address req) || falsy (arg_date req) = false /\
        ~ malformed (request_criteria req) (request_time_filter req)
    end.
Proof.
  intros HR. unfold get_inspections.
  destruct (falsy (arg_address req) || falsy (arg_date req)) eqn:Fy.
  { eexists. split; [reflexivity | cbv beta iota; auto]. }
  destruct (extract_ok (get (arg_address req) "")) as (suburb & postcode & ->).
  cbn [bind].
  destruct (pipeline_cases R (get (arg_date req) "") suburb postcode
              (request_criteria req) (request_time_filter req) g HR)
    as [(ins & g' & s & e & data & Run & _ & _ & _ & NM & _) | [Bad Run]];
    rewrite Run; eexists; (split; [reflexivity |]); cbv beta iota; auto.
Qed.

Lemma get_inspections_status_witness :
  exists resp,
    get_inspections counter_random sample_request 0%nat = Ok resp /\
    match resp with
    | Json400 msg =>
        falsy (arg_address sample_request) || falsy (arg_date sample_request)
        = true /\
        msg = "Missing address or date"
    | Json500 e =>
        falsy (arg_address sample_request) || falsy (arg_date sample_request)
        = false /\
        e = ValueError /\
        malformed (request_criteria sample_request)
          (request_time_filter sample_request)
    | Json200 _ =>
        falsy (arg_address sample_request) || falsy (arg_date sample_request)
        = false /\
        ~ malformed (request_criteria sample_request)
            (request_time_filter sample_request)
    end.
Proof.
  apply (get_inspections_status counter_random sample_request 0%nat).
  apply counter_random_lawful.
Defined.

(** X20: a 200 answer of [get_inspections] is consistent: between 12 and
    25 mock inspections for the requested date, the similar ones a
    sub-list of them in the same order, the bucket list the aggregation
    of the similar ones, the recommendations its ranking; the counts of
    the buckets sum to at most the number of similar inspections, and to
    exactly that number for a window from 09:00 or earlier to 16:00 or
    later; suburb and postcode are those read from the address. *)
Theorem get_inspections_body {G : Type} (R : Random G) (req : Request)
  (g : G) (body : Body) :
  lawful R ->
  get_inspections R req g = Ok (Json200 body) ->
  let a := analysis body in
  arg_address req = Some (search_address body) /\
  arg_date req = Some (search_date body) /\
  extract_suburb_postcode (search_address body)
  = Ok (search_suburb body, search_postcode body) /\
  12 <= resp_total_inspections a <= 25 /\
  resp_total_inspections a = Z.of_nat (List.length (resp_inspections a)) /\
  Forall (mock_record (search_date body) (search_postcode body))
    (resp_inspections a) /\
  filter_similar_properties (resp_inspections a) (request_criteria req)
  = Ok (resp_filtered_inspections a) /\
  Subseq (resp_filtered_inspections a) (resp_inspections a) /\
  resp_similar_inspections a
  = Z.of_nat (List.length (resp_filtered_inspections a)) /\
  resp_similar_inspections a <= resp_total_inspections a /\
  analyze_competition (resp_filtered_inspections a) (request_time_filter req)
  = Ok (resp_competition_analysis a) /\
  resp_recommendations a = recommendations (resp_competition_analysis a) /\
  sum_counts (resp_competition_analysis a) <= resp_similar_inspections a /\
  (forall s e,
     window_hour (get (arg_start_time req) "09:00") = Ok s ->
     window_hour (get (arg_end_time req) "16:00") = Ok e ->
     s <= 9 -> 16 <= e ->
     sum_counts (resp_competition_analysis a) = resp_similar_inspections a).
Proof.
  intros HR H a. subst a. unfold get_inspections in H.
  destruct (falsy (arg_address req) || falsy (arg_date req)) eqn:Fy;
    [discriminate |].
  apply orb_false_iff in Fy as [Fa Fd].
  destruct (extract_ok (get (arg_address req) "")) as (suburb & postcode & Ex).
  rewrite Ex in H. cbn [bind] in H.
  destruct (pipeline_cases R (get (arg_date req) "") suburb postcode
              (request_criteria req) (request_time_filter req) g HR)
    as [(ins & g' & s & e & data & Run & _ & Len & Rec & _ & Hs & He & Di
         & Ef & Sf & Ea & Eb & Er & Et & Es & _) | [Bad Run]];
    rewrite Run in H; [| discriminate].
  injection H as <-.
  cbn [analysis search_address search_suburb search_postcode search_date].
  rewrite Di, Et, Es.
  pose proof (Subseq_length _ _ Sf) as Ls.
  repeat split; try assumption; try lia;
    try (now apply falsy_get).
  - rewrite Eb. rewrite Eb in Ea. apply sum_counts_le.
  - intros s' e' Hs' He' Hs9 He16.
    cbn [request_time_filter filter_start filter_end get] in Hs, He.
    assert (s' = s) by congruence. assert (e' = e) by congruence. subst.
    rewrite Eb. apply sum_counts_in_window.
    apply (Subseq_Forall _ _ _ Sf). eapply Forall_impl; [| exact Rec].
    intros i. now apply mock_record_in_window.
Qed.

Lemma get_inspections_body_witness :
  match get_inspections counter_random sample_request 0%nat with
  | Ok (Json200 body) =>
      resp_similar_inspections (analysis body)
      <= resp_total_inspections (analysis body)
  | _ => True
  end.
Proof.
  destruct (get_inspections counter_random sample_request 0%nat)
    as [[body | msg | e] | e] eqn:E; try exact I.
  apply (get_inspections_body counter_random sample_request 0%nat body);
    [apply counter_random_lawful | exact E].
Defined.

(** X21: [get_mock_data] has no handler of its own: with a lawful
    generator it raises, a ValueError, exactly when a range spec or a
    window hour does not parse.  With the default window it returns 15
    buckets and 5 recommendations, every similar inspection is counted,
    and the inspections bear the requested date, or today's when none is
    given. *)
Theorem get_mock_data_behaviour {G : Type} (R : Random G) (today : string)
  (req : Request) (g : G) :
  lawful R ->
  (raises (get_mock_data R today req g) <->
   malformed (request_criteria req) (request_time_filter req)) /\
  (forall e, get_mock_data R today req g = Raise e -> e = ValueError) /\
  (arg_start_time req = None -> arg_end_time req = None ->
   ~ malformed (request_criteria req) (request_time_filter req) ->
   exists a g',
     get_mock_data R today req g = Ok (a, g') /\
     List.length (resp_competition_analysis a) = 15%nat /\
     List.length (resp_recommendations a) = 5%nat /\
     sum_counts (resp_competition_analysis a) = resp_similar_inspections a /\
     Forall (fun i => date i = get (arg_date req) today)
       (resp_inspections a)).
Proof.
  intros HR. unfold get_mock_data.
  destruct (pipeline_cases R (get (arg_date req) today) "suburb" "2000"
              (request_criteria req) (request_time_filter req) g HR)
    as [(ins & g' & s & e & data & Run & _ & Len & Rec & NM & Hs & He & Di
         & Ef & Sf & Ea & Eb & Er & Et & Es & _) | [Bad Run]];
    rewrite Run.
  - split; [split; [intros [err H]; discriminate | tauto] |].
    split; [discriminate |].
    intros Hst Hen _. exists data, g'. split; [reflexivity |].
    cbn [request_time_filter filter_start filter_end get] in Hs, He.
    rewrite Hst in Hs. rewrite Hen in He. cbn [get] in Hs, He.
    assert (s = 9) by (vm_compute in Hs; congruence).
    assert (e = 16) by (vm_compute in He; congruence). subst s e.
    rewrite Er, length_recommendations, Eb, length_map,
      length_window_times_gen.
    split; [reflexivity |]. split; [reflexivity |]. split.
    + rewrite Es. apply sum_counts_in_window.
      apply (Subseq_Forall _ _ _ Sf). eapply Forall_impl; [| exact Rec].
      intros i. apply mock_record_in_window; lia.
    + rewrite Di. eapply Forall_impl; [| exact Rec]. now intros i (D & _).
  - split; [split; [tauto | intros _; now exists ValueError] |].
    split; [now intros err [= <-] | tauto].
Qed.

Lemma get_mock_data_behaviour_witness :
  exists a g',
    get_mock_data counter_random "2024-01-20" sample_request 0%nat
    = Ok (a, g') /\
    List.length (resp_competition_analysis a) = 15%nat /\
    List.length (resp_recommendations a) = 5%nat /\
    sum_counts (resp_competition_analysis a) = resp_similar_inspections a /\
    Forall (fun i => date i = get (arg_date sample_request) "2024-01-20")
      (resp_inspections a).
Proof.
  destruct (get_mock_data_behaviour counter_random "2024-01-20"
              sample_request 0%nat counter_random_lawful) as (_ & _ & H).
  apply H; [reflexivity | reflexivity |].
  intros [[e M] | [[e M] | [[e M] | [[e M] | [e M]]]]];
    vm_compute in M; discriminate M.
Defined.

(** X22: the keys the aggregation prints and the start times it parses
    agree: a record whose start time is the key of a bucket of the window
    is counted once, in the bucket of that very key, and in no other. *)
Theorem bucket_key_round_trip (i : Inspection) (tf : TimeFilter)
  (s e hour minute : Z) :
  window_hour (get (filter_start tf) "09:00") = Ok s ->
  window_hour (get (filter_end tf) "16:00") = Ok e ->
  In (hour, minute) (window_times s e) ->
  start_time i = time_key hour minute ->
  exists slots,
    analyze_competition [i] tf = Ok slots /\
    In (start_time i) (map time slots) /\
    forall b, In b slots ->
              count b = if String.eqb (time b) (start_time i) then 1 else 0.
Proof.
  intros Hs He Hin Hst.
  assert (P : parse_start_time (start_time i) = Ok (hour, minute))
    by (rewrite Hst; apply parse_time_key).
  assert (Rm : (if minute <? 30 then 0 else 30) = minute).
  { apply In_window_times in Hin. destruct Hin as (_ & [-> | [-> _]]);
      reflexivity. }
  pose proof (rounded_slot_parse i hour minute P) as Rs. rewrite Rm in Rs.
  exists (map (bucket_of [i]) (window_times s e)). split; [| split].
  - apply analyze_competition_eq; try assumption.
    constructor; [| constructor]. apply parsed_parseable. eauto.
  - rewrite map_map. cbn [time bucket_of]. rewrite Hst.
    change (time_key hour minute) with (pair_key (hour, minute)).
    now apply in_map.
  - intros b Hb. apply in_map_iff in Hb as (p & <- & _).
    cbn [count time bucket_of filter]. rewrite (in_slot_eq i p _ Rs), Hst.
    change (time_key hour minute) with (pair_key (hour, minute)).
    destruct (String.eqb (pair_key p) (pair_key (hour, minute))); reflexivity.
Qed.

Lemma bucket_key_round_trip_witness :
  exists slots,
    analyze_competition [inspection_at "10:30" None] morning_window = Ok slots /\
    In (start_time (inspection_at "10:30" None)) (map time slots) /\
    forall b, In b slots ->
              count b = if String.eqb (time b)
                             (start_time (inspection_at "10:30" None))
                        then 1 else 0.
Proof.
  apply (bucket_key_round_trip (inspection_at "10:30" None) morning_window
           9 11 10 30); try reflexivity.
  vm_compute. tauto.
Defined.
